(** * Aljwaed backend: upload, listing and download handlers

    A shallow embedding of [aljwaed-Backend/server.js].  The three route
    handlers are written in a small state-and-exception monad over a
    [World] made of the upload directory, the metadata file and the
    ordered list of observable effects (console output, multipart
    parsing, filesystem calls).  A handler runs to completion on the
    world it is given; [uploads_overlapped] is the one place where two
    requests are in flight at once. *)

From Stdlib Require Import ZArith Ascii String List Lia.
From Stdlib Require Import Sorting.Permutation Sorting.Sorted.
From stdpp Require Import gmap strings list.

Open Scope string_scope.

(** ** JavaScript values used by the handlers *)

Module Js.

(** A header, an environment variable or a form field: a string or
    [undefined]. *)
Definition value := option string.

(** [!v] is false exactly for a non-empty string. *)
Definition truthy (v : value) : bool :=
  match v with
  | Some s => negb (String.eqb s "")
  | None => false
  end.

(** [v || d] *)
Definition or_else (v : value) (d : string) : string :=
  match v with
  | Some s => if String.eqb s "" then d else s
  | None => d
  end.

(** [a !== b] *)
Definition strict_neq (a b : value) : bool :=
  match a, b with
  | Some x, Some y => negb (String.eqb x y)
  | None, None => false
  | _, _ => true
  end.

(** [s.includes(sub)] *)
Fixpoint includes (s sub : string) : bool :=
  String.prefix sub s ||
  match s with
  | EmptyString => false
  | String _ rest => includes rest sub
  end.

Definition lower_char (c : ascii) : ascii :=
  let n := nat_of_ascii c in
  if (65 <=? n)%nat && (n <=? 90)%nat then ascii_of_nat (n + 32) else c.

(** [s.toLowerCase()] on the characters of the string. *)
Fixpoint toLowerCase (s : string) : string :=
  match s with
  | EmptyString => EmptyString
  | String c rest => String (lower_char c) (toLowerCase rest)
  end.

End Js.

(** ** [path.extname] (POSIX flavour, as on the deployed Linux image)

    The backward scan of Node's [path.posix.extname], with its five
    loop variables. *)

Module Path.

Record scan := {
  startDot : Z;
  startPart : Z;
  end_ : Z;
  matchedSlash : bool;
  preDotState : Z
}.

Definition scan0 : scan :=
  {| startDot := -1; startPart := 0; end_ := -1;
     matchedSlash := true; preDotState := 0 |}.

(** [extname_loop p n st] runs the iterations [i = n-1, ..., 0]. *)
Fixpoint extname_loop (p : string) (n : nat) (st : scan) : scan :=
  match n with
  | O => st
  | S i =>
    match String.get i p with
    | None => st
    | Some code =>
      if Ascii.eqb code "/" then
        if negb (matchedSlash st) then
          {| startDot := startDot st; startPart := Z.of_nat i + 1;
             end_ := end_ st; matchedSlash := matchedSlash st;
             preDotState := preDotState st |}
        else extname_loop p i st
      else
        let st1 :=
          if (end_ st =? -1)%Z then
            {| startDot := startDot st; startPart := startPart st;
               end_ := Z.of_nat i + 1; matchedSlash := false;
               preDotState := preDotState st |}
          else st in
        let st2 :=
          if Ascii.eqb code "." then
            if (startDot st1 =? -1)%Z then
              {| startDot := Z.of_nat i; startPart := startPart st1;
                 end_ := end_ st1; matchedSlash := matchedSlash st1;
                 preDotState := preDotState st1 |}
            else if negb (preDotState st1 =? 1)%Z then
              {| startDot := startDot st1; startPart := startPart st1;
                 end_ := end_ st1; matchedSlash := matchedSlash st1;
                 preDotState := 1 |}
            else st1
          else if negb (startDot st1 =? -1)%Z then
            {| startDot := startDot st1; startPart := startPart st1;
               end_ := end_ st1; matchedSlash := matchedSlash st1;
               preDotState := -1 |}
          else st1 in
        extname_loop p i st2
    end
  end.

Definition extname (p : string) : string :=
  let st := extname_loop p (String.length p) scan0 in
  if (startDot st =? -1)%Z
     || (end_ st =? -1)%Z
     || (preDotState st =? 0)%Z
     || ((preDotState st =? 1)%Z
         && (startDot st =? end_ st - 1)%Z
         && (startDot st =? startPart st + 1)%Z)
  then ""
  else String.substring (Z.to_nat (startDot st))
                        (Z.to_nat (end_ st - startDot st)) p.

End Path.

(** ** Data model *)

(** One entry of [metadata.json].  [uploadedAt] is the time value (ms
    since the epoch) whose ISO-8601 rendering the file stores:
    [new Date().toISOString()] on writing and [new Date(...)] on reading
    are inverse on it. *)
Record SoftwareRecord := {
  id : string;
  name : string;
  version : string;
  description : string;
  originalFilename : string;
  serverFilename : string;
  uploadedAt : Z;
  size : N
}.

(** The text of [metadata.json]: either [JSON.parse] rejects it, or it
    is the array of records [writeMetadata] stored. *)
Inductive MetaText :=
| Malformed
| JsonArray (records : list SoftwareRecord).

(** What a handler does to the outside, in order. *)
Inductive Event :=
| ConsoleError (msg : string)
| ConsoleWarn (msg : string)
| MulterParse                       (* upload.single('softwareFile') reads the body *)
| FsWriteUpload (filename : string) (* diskStorage stores the part in UPLOADS_DIR *)
| FsUnlink (filename : string)      (* fs.unlink(UPLOADS_DIR/filename) *)
| FsAccess (filename : string)      (* fs.access(UPLOADS_DIR/filename) *)
| FsReadFile                        (* fs.readFile(METADATA_FILE) *)
| FsWriteFile.                      (* fs.writeFile(METADATA_FILE, ...) *)

(** [uploads] is the content of UPLOADS_DIR keyed by file name,
    [metadata] the content of METADATA_FILE ([None]: no such file). *)
Record World := {
  uploads : gmap string (list Byte.byte);
  metadata : option MetaText;
  events : list Event
}.

Definition emit (e : Event) (w : World) : World :=
  {| uploads := uploads w; metadata := metadata w;
     events := (events w ++ [e])%list |}.

(** How a call of [fs.writeFile] on the metadata file ends: it succeeds,
    it fails before the file is touched (open refused), or it fails
    after the file was truncated and only partly rewritten. *)
Inductive WriteOutcome := WriteOk | WriteRefused | WriteTorn.

(** What the surroundings supply to one request: the two values
    [uuidv4()] returns (file name, record id), the clock, and which
    filesystem calls fail for a reason other than a missing file. *)
Record Env := {
  uuid_for_file : string;
  uuid_for_id : string;
  now : Z;
  readFile_fails : bool;
  writeFile_outcome : WriteOutcome;
  unlink_fails : bool;
  access_fails : bool
}.

(** Process configuration: [process.env.UPLOAD_TOKEN]. *)
Record Config := { UPLOAD_TOKEN : Js.value }.

Definition MY_SECRET_UPLOAD_TOKEN (cfg : Config) : Js.value := UPLOAD_TOKEN cfg.

(** ** The request and response types *)

(** The part sent under the field [softwareFile]. *)
Record FilePart := {
  originalname : string;
  content : list Byte.byte
}.

Definition part_size (f : FilePart) : N := N.of_nat (length (content f)).

(** [req.body] after multer has collected the text fields. *)
Record Body := {
  softwareName : Js.value;
  softwareVersion : Js.value;
  softwareDescription : Js.value
}.

(** An upload request: the [x-upload-token] header and the multipart
    form, with at most the one file part the form defines. *)
Record UploadRequest := {
  x_upload_token : Js.value;
  softwareFile : option FilePart;
  fields : Body
}.

(** [req.file] as multer's disk storage fills it; the file lies in
    UPLOADS_DIR, so [file_filename] also stands for [req.file.path]. *)
Record StoredFile := {
  file_originalname : string;
  file_filename : string;
  file_size : N
}.

Inductive Payload :=
| Message (message : string)                         (* res.json({ message }) *)
| Created (message : string) (software : SoftwareRecord)
| Listing (records : list SoftwareRecord)            (* res.json(metadata) *)
| Text (text : string)                               (* res.send(text) *)
| Download (filename : string) (sentAs : string).    (* res.download(...) *)

Record Response := { status : nat; payload : Payload }.

(** ** The handler monad: state plus exceptions *)

Inductive JsError :=
| ENOENT          (* error.code === 'ENOENT' *)
| EIO             (* any other filesystem error *)
| SyntaxError.    (* JSON.parse *)

Inductive Result (A : Type) :=
| Ok (a : A)
| Throw (e : JsError).
Arguments Ok {A} a.
Arguments Throw {A} e.

Definition M (A : Type) : Type := World -> Result A * World.

Definition ret {A} (a : A) : M A := fun w => (Ok a, w).

Definition bind {A B} (m : M A) (k : A -> M B) : M B :=
  fun w =>
    match m w with
    | (Ok a, w') => k a w'
    | (Throw e, w') => (Throw e, w')
    end.

Definition throw {A} (e : JsError) : M A := fun w => (Throw e, w).

(** [try { body } catch (e) { handler(e) }] *)
Definition try_catch {A} (body : M A) (handler : JsError -> M A) : M A :=
  fun w =>
    match body w with
    | (Ok a, w') => (Ok a, w')
    | (Throw e, w') => handler e w'
    end.

Declare Scope handler_scope.
Delimit Scope handler_scope with handler.
Notation "'do' x <- m ; k" := (bind m (fun x => k))
  (at level 10, x name, m at level 100, k at level 200) : handler_scope.
Notation "'run' m ; k" := (bind m (fun _ => k))
  (at level 10, m at level 100, k at level 200) : handler_scope.
Open Scope handler_scope.

Definition console_error (msg : string) : M unit :=
  fun w => (Ok tt, emit (ConsoleError msg) w).

Definition console_warn (msg : string) : M unit :=
  fun w => (Ok tt, emit (ConsoleWarn msg) w).

(** ** Filesystem primitives *)

Definition fs_readFile (env : Env) : M MetaText :=
  fun w =>
    let w := emit FsReadFile w in
    if readFile_fails env then (Throw EIO, w)
    else match metadata w with
         | None => (Throw ENOENT, w)
         | Some t => (Ok t, w)
         end.

Definition JSON_parse (data : MetaText) : M (list SoftwareRecord) :=
  match data with
  | Malformed => throw SyntaxError
  | JsonArray l => ret l
  end.

Definition fs_writeFile (env : Env) (data : list SoftwareRecord) : M unit :=
  fun w =>
    let w := emit FsWriteFile w in
    match writeFile_outcome env with
    | WriteOk =>
      (Ok tt, {| uploads := uploads w; metadata := Some (JsonArray data);
                 events := events w |})
    | WriteRefused => (Throw EIO, w)
    | WriteTorn =>
      (Throw EIO, {| uploads := uploads w; metadata := Some Malformed;
                     events := events w |})
    end.

Definition fs_unlink (env : Env) (filename : string) : M unit :=
  fun w =>
    let w := emit (FsUnlink filename) w in
    if unlink_fails env then (Throw EIO, w)
    else match uploads w !! filename with
         | None => (Throw ENOENT, w)
         | Some _ =>
           (Ok tt, {| uploads := delete filename (uploads w);
                      metadata := metadata w; events := events w |})
         end.

Definition fs_access (env : Env) (filename : string) : M unit :=
  fun w =>
    let w := emit (FsAccess filename) w in
    if access_fails env then (Throw EIO, w)
    else match uploads w !! filename with
         | None => (Throw ENOENT, w)
         | Some _ => (Ok tt, w)
         end.

(** ** Metadata store: [readMetadata], [writeMetadata] *)

Definition readMetadata (env : Env) : M (list SoftwareRecord) :=
  try_catch
    (do data <- fs_readFile env; JSON_parse data)
    (fun error =>
       run console_error "Error reading metadata:";
       match error with
       | ENOENT => ret []
       | _ => throw error
       end).

Definition writeMetadata (env : Env) (data : list SoftwareRecord) : M unit :=
  try_catch
    (fs_writeFile env data)
    (fun error => run console_error "Error writing metadata:"; throw error).

(** ** Multer: disk storage, file filter, limits *)

(** [storage.filename]: a fresh UUID followed by the extension of the
    name the client gave. *)
Definition filename (env : Env) (file : FilePart) : string :=
  uuid_for_file env ++ Path.extname (originalname file).

(** [fileFilter]: [inl msg] is [cb(new Error(msg), false)], [inr true]
    is [cb(null, true)]. *)
Definition fileFilter (file : FilePart) : string + bool :=
  if negb (String.eqb (Js.toLowerCase (Path.extname (originalname file))) ".exe")
  then inl "Only .exe files are allowed!"
  else inr true.

(** [limits.fileSize]: 1024 * 1024 * 200 *)
Definition fileSize_limit : N := 1024 * 1024 * 200.

(** What reaches the disk of a part that is over the limit. *)
Definition cut_at_limit (file : FilePart) : list Byte.byte :=
  take (N.to_nat fileSize_limit) (content file).
Arguments cut_at_limit : simpl never.

(** The error handed to the callback of [upload.single]. *)
Inductive UploadError :=
| MulterError (message : string)   (* err instanceof multer.MulterError *)
| OtherError (message : string).

(** What the callback of [upload.single('softwareFile')] receives:
    [err], or [req.file] and [req.body]. *)
Inductive MulterOutcome :=
| MulterFailed (err : UploadError)
| MulterDone (file : option StoredFile) (body : Body).

(** [upload.single('softwareFile')]: the part is filtered first, then
    streamed to UPLOADS_DIR under [filename].  A part that grows past
    the limit is cut at the limit; multer lets that write finish and
    then unlinks the file itself, keeping a failure of the unlink to
    itself, before it hands LIMIT_FILE_SIZE to the callback. *)
Definition upload_single (env : Env) (req : UploadRequest) : M MulterOutcome :=
  fun w =>
    let w := emit MulterParse w in
    match softwareFile req with
    | None => (Ok (MulterDone None (fields req)), w)
    | Some part =>
      match fileFilter part with
      | inl msg => (Ok (MulterFailed (OtherError msg)), w)
      | inr false => (Ok (MulterDone None (fields req)), w)
      | inr true =>
        if (fileSize_limit <? part_size part)%N then
          let fname := filename env part in
          let w := emit (FsUnlink fname) (emit (FsWriteUpload fname) w) in
          (Ok (MulterFailed (MulterError "File too large")),
           {| uploads :=
                if unlink_fails env
                then <[fname := cut_at_limit part]> (uploads w)
                else delete fname (uploads w);
              metadata := metadata w; events := events w |})
        else
          let fname := filename env part in
          let w := emit (FsWriteUpload fname) w in
          (Ok (MulterDone
                 (Some {| file_originalname := originalname part;
                          file_filename := fname;
                          file_size := part_size part |})
                 (fields req)),
           {| uploads := <[fname := content part]> (uploads w);
              metadata := metadata w; events := events w |})
      end
    end.

(** ** POST /api/software/upload *)

Definition json (code : nat) (msg : string) : Response :=
  {| status := code; payload := Message msg |}.

(** The object literal [newSoftware] of the handler. *)
Definition newSoftware (env : Env) (file : StoredFile) (body : Body)
  : SoftwareRecord :=
  {| id := uuid_for_id env;
     name := Js.or_else (softwareName body) "";
     version := Js.or_else (softwareVersion body) "";
     description := Js.or_else (softwareDescription body) "";
     originalFilename := file_originalname file;
     serverFilename := file_filename file;
     uploadedAt := now env;
     size := file_size file |}.

Definition upload_callback (env : Env) (out : MulterOutcome) : M Response :=
  match out with
  | MulterFailed (MulterError msg) =>
    run console_error "Multer error:";
    ret (json 400 ("File upload error: " ++ msg))
  | MulterFailed (OtherError msg) =>
    run console_error "Unknown upload error:";
    ret (json 400 (Js.or_else (Some msg) "Unknown upload error"))
  | MulterDone None _ =>
    ret (json 400 "No file uploaded.")
  | MulterDone (Some file) body =>
    if negb (Js.truthy (softwareName body)) then
      run try_catch
            (fs_unlink env (file_filename file))
            (fun unlinkErr => console_error "Error deleting orphaned file:");
      ret (json 400 "Software name is required.")
    else
      try_catch
        (do metadata <- readMetadata env;
         let newSoftware := newSoftware env file body in
         run writeMetadata env (metadata ++ [newSoftware])%list;
         ret {| status := 201;
                payload := Created "Software uploaded successfully!" newSoftware |})
        (fun error =>
           run console_error "Error saving metadata:";
           run try_catch
                 (fs_unlink env (file_filename file))
                 (fun unlinkErr =>
                    console_error "Error deleting file after metadata failure:");
           ret (json 500 "Error saving software metadata."))
  end.

Definition upload_handler (cfg : Config) (env : Env) (req : UploadRequest)
  : M Response :=
  let providedToken := x_upload_token req in
  if negb (Js.truthy (MY_SECRET_UPLOAD_TOKEN cfg)) then
    run console_error
          "UPLOAD_TOKEN ist serverseitig nicht konfiguriert. Upload abgelehnt.";
    ret (json 500 "Server configuration error regarding upload token.")
  else if Js.strict_neq providedToken (MY_SECRET_UPLOAD_TOKEN cfg) then
    run console_warn "Unauthorized upload attempt: Invalid or missing token.";
    ret (json 401 "Unauthorized: Invalid or missing upload token.")
  else
    do out <- upload_single env req;
    upload_callback env out.

(** *** Two uploads in flight

    The handler gives up control at each [await].  The two halves below
    cut it at [await writeMetadata(metadata)]: the first runs up to and
    including the read of the metadata file and the [push], the second
    is the write with what follows it.  [upload_handler_split] shows
    that one half after the other is the handler. *)

(** What a suspended upload holds: [req.file], the array it read with
    its own record pushed, and that record. *)
Record Pending := {
  pending_file : StoredFile;
  pending_metadata : list SoftwareRecord;
  pending_record : SoftwareRecord
}.

(** The [catch (error)] block around the metadata calls. *)
Definition upload_cleanup (env : Env) (file : StoredFile) : M Response :=
  run console_error "Error saving metadata:";
  run try_catch
        (fs_unlink env (file_filename file))
        (fun unlinkErr =>
           console_error "Error deleting file after metadata failure:");
  ret (json 500 "Error saving software metadata.").

Definition upload_begin (cfg : Config) (env : Env) (req : UploadRequest)
  : M (Response + Pending) :=
  let providedToken := x_upload_token req in
  if negb (Js.truthy (MY_SECRET_UPLOAD_TOKEN cfg)) then
    run console_error
          "UPLOAD_TOKEN ist serverseitig nicht konfiguriert. Upload abgelehnt.";
    ret (inl (json 500 "Server configuration error regarding upload token."))
  else if Js.strict_neq providedToken (MY_SECRET_UPLOAD_TOKEN cfg) then
    run console_warn "Unauthorized upload attempt: Invalid or missing token.";
    ret (inl (json 401 "Unauthorized: Invalid or missing upload token."))
  else
    do out <- upload_single env req;
    match out with
    | MulterDone (Some file) body =>
      if negb (Js.truthy (softwareName body)) then
        do r <- upload_callback env out; ret (inl r)
      else
        try_catch
          (do metadata <- readMetadata env;
           let newSoftware := newSoftware env file body in
           ret (inr {| pending_file := file;
                       pending_metadata := (metadata ++ [newSoftware])%list;
                       pending_record := newSoftware |}))
          (fun error => do r <- upload_cleanup env file; ret (inl r))
    | _ => do r <- upload_callback env out; ret (inl r)
    end.

Definition upload_resume (env : Env) (x : Response + Pending) : M Response :=
  match x with
  | inl r => ret r
  | inr p =>
    try_catch
      (run writeMetadata env (pending_metadata p);
       ret {| status := 201;
              payload := Created "Software uploaded successfully!"
                                 (pending_record p) |})
      (fun error => upload_cleanup env (pending_file p))
  end.

(** Two uploads that both read the metadata file before either writes
    it. *)
Definition uploads_overlapped (cfg : Config) (env1 : Env) (req1 : UploadRequest)
           (env2 : Env) (req2 : UploadRequest) : M (Response * Response) :=
  do x1 <- upload_begin cfg env1 req1;
  do x2 <- upload_begin cfg env2 req2;
  do r1 <- upload_resume env1 x1;
  do r2 <- upload_resume env2 x2;
  ret (r1, r2).

(** ** GET /api/software *)

(** The comparator [(a, b) => new Date(b.uploadedAt) - new Date(a.uploadedAt)]. *)
Definition by_uploadedAt_desc (a b : SoftwareRecord) : Z :=
  uploadedAt b - uploadedAt a.

(** [Array.prototype.sort] is stable: an element moves behind exactly
    those the comparator puts strictly before it. *)
Fixpoint sort_insert {A} (cmp : A -> A -> Z) (x : A) (l : list A) : list A :=
  match l with
  | [] => [x]
  | y :: rest =>
    if (0 <? cmp x y)%Z then y :: sort_insert cmp x rest else x :: l
  end.

Definition Array_sort {A} (cmp : A -> A -> Z) (l : list A) : list A :=
  fold_right (sort_insert cmp) [] l.

Definition list_handler (env : Env) : M Response :=
  try_catch
    (do metadata <- readMetadata env;
     ret {| status := 200;
            payload := Listing (Array_sort by_uploadedAt_desc metadata) |})
    (fun error => ret (json 500 "Error fetching software list.")).

(** ** GET /api/software/download/:serverFilename *)

Definition send (code : nat) (text : string) : Response :=
  {| status := code; payload := Text text |}.

Definition download_handler (env : Env) (serverFilename_param : string)
  : M Response :=
  try_catch
    (if Js.includes serverFilename_param ".."
        || Js.includes serverFilename_param "/"
     then ret (send 400 "Invalid filename.")
     else
       run fs_access env serverFilename_param;
       do metadata <- readMetadata env;
       let softwareInfo :=
         List.find (fun s => String.eqb (serverFilename s) serverFilename_param)
                   metadata in
       let originalFilename_ :=
         match softwareInfo with
         | Some s => originalFilename s
         | None => serverFilename_param
         end in
       ret {| status := 200;
              payload := Download serverFilename_param originalFilename_ |})
    (fun error =>
       run console_error "File access error:";
       ret (send 404 "File not found.")).

(** ** Start-up: the upload directory and the metadata file *)

(** [fs.mkdir(UPLOADS_DIR, { recursive: true })]: the directory of the
    model is always there, so the call only succeeds or fails. *)
Definition fs_mkdir (fails : bool) : M unit :=
  fun w => if fails then (Throw EIO, w) else (Ok tt, w).

(** [fs.access(METADATA_FILE)] *)
Definition fs_access_metadata (env : Env) : M unit :=
  fun w =>
    if access_fails env then (Throw EIO, w)
    else match metadata w with
         | None => (Throw ENOENT, w)
         | Some _ => (Ok tt, w)
         end.

(** The start-up block: make sure the directory exists, and write an
    empty array when the metadata file cannot be accessed. *)
Definition ensure_storage (mkdir_fails : bool) (env : Env) : M unit :=
  try_catch
    (run fs_mkdir mkdir_fails;
     try_catch (fs_access_metadata env)
               (fun error => fs_writeFile env []))
    (fun err =>
       console_error
         "Error ensuring uploads directory or metadata file exists:").

(** ** Observations used in the statements *)

(** The effects a handler added when it took the world from [w] to [w']. *)
Definition emitted (w w' : World) : list Event :=
  drop (length (events w)) (events w').

(** The records a reader of the metadata file gets. *)
Definition stored_records (w : World) : list SoftwareRecord :=
  match metadata w with
  | Some (JsonArray l) => l
  | _ => []
  end.

Definition is_fs_event (e : Event) : bool :=
  match e with
  | ConsoleError _ | ConsoleWarn _ | MulterParse => false
  | _ => true
  end.

Definition is_parse (e : Event) : bool :=
  match e with
  | MulterParse => true
  | _ => false
  end.




(** The token check lets the request through to multer. *)
Definition token_accepted (cfg : Config) (req : UploadRequest) : Prop :=
  Js.truthy (MY_SECRET_UPLOAD_TOKEN cfg) = true /\
  x_upload_token req = MY_SECRET_UPLOAD_TOKEN cfg.

(** The textual shape of a value of [uuidv4()]:
    8-4-4-4-12 lower-case hexadecimal digits. *)
Definition is_hex (c : ascii) : bool :=
  let n := nat_of_ascii c in
  ((48 <=? n)%nat && (n <=? 57)%nat) || ((97 <=? n)%nat && (n <=? 102)%nat).

Fixpoint hex_run (n : nat) (s : string) : option string :=
  match n with
  | O => Some s
  | S k =>
    match s with
    | String c rest => if is_hex c then hex_run k rest else None
    | EmptyString => None
    end
  end.

Definition hex_group (n : nat) (s : string) : option string :=
  match hex_run n s with
  | Some (String c rest) => if Ascii.eqb c "-" then Some rest else None
  | _ => None
  end.

Definition is_uuid (s : string) : bool :=
  match hex_group 8 s with
  | Some s1 =>
    match hex_group 4 s1 with
    | Some s2 =>
      match hex_group 4 s2 with
      | Some s3 =>
        match hex_group 4 s3 with
        | Some s4 =>
          match hex_run 12 s4 with
          | Some EmptyString => true
          | _ => false
          end
        | None => false
        end
      | None => false
      end
    | None => false
    end
  | None => false
  end.

(** Upload requests served one after the other, each with its own
    surroundings; the answers come back in order. *)
Fixpoint serve_uploads (cfg : Config) (rs : list (Env * UploadRequest))
         (w : World) : list (Result Response) * World :=
  match rs with
  | [] => ([], w)
  | (env, req) :: rest =>
    let '(r, w1) := upload_handler cfg env req w in
    let '(answers, w2) := serve_uploads cfg rest w1 in
    (r :: answers, w2)
  end.

Definition is_created (r : Result Response) : bool :=
  match r with
  | Ok resp => Nat.eqb (status resp) 201
  | Throw _ => false
  end.

Definition count_created (answers : list (Result Response)) : nat :=
  length (List.filter is_created answers).

(** Newest first. *)
Definition newest_first (l : list SoftwareRecord) : Prop :=
  StronglySorted (fun a b => (uploadedAt b <= uploadedAt a)%Z) l.

(** The part passes [fileFilter] and fits under [limits.fileSize]. *)
Definition valid_exe (part : FilePart) : Prop :=
  Js.toLowerCase (Path.extname (originalname part)) = ".exe" /\
  (part_size part <= fileSize_limit)%N.

(** [req.file] for a stored part. *)
Definition stored_file (env : Env) (part : FilePart) : StoredFile :=
  {| file_originalname := originalname part;
     file_filename := filename env part;
     file_size := part_size part |}.

(** The world once multer has stored the part. *)
Definition after_store (env : Env) (part : FilePart) (w : World) : World :=
  {| uploads := <[filename env part := content part]> (uploads w);
     metadata := metadata w;
     events := (events w ++ [MulterParse; FsWriteUpload (filename env part)])%list |}.

(** [readMetadata] will throw: the read fails, or the text does not parse. *)
Definition read_failure (env : Env) (w : World) : Prop :=
  readFile_fails env = true \/ metadata w = Some Malformed.

(** What [readMetadata] adds to the record of effects when it returns. *)
Definition read_events (w : World) : list Event :=
  match metadata w with
  | None => [FsReadFile; ConsoleError "Error reading metadata:"]
  | Some _ => [FsReadFile]
  end.

(** What the best-effort [fs.unlink] of a stored file adds. *)
Definition cleanup_events (env : Env) (f msg : string) : list Event :=
  FsUnlink f :: (if unlink_fails env then [ConsoleError msg] else []).

(** The ways a run of the upload handler can go, each with the answer
    and the world it leaves.  [upload_handler_path] below shows that every
    run follows exactly one of them. *)
Inductive upload_path (cfg : Config) (env : Env) (req : UploadRequest)
          (w : World) : Response -> World -> Prop :=
| path_unconfigured :
    Js.truthy (MY_SECRET_UPLOAD_TOKEN cfg) = false ->
    upload_path cfg env req w
      (json 500 "Server configuration error regarding upload token.")
      (emit (ConsoleError
               "UPLOAD_TOKEN ist serverseitig nicht konfiguriert. Upload abgelehnt.")
            w)
| path_bad_token :
    Js.truthy (MY_SECRET_UPLOAD_TOKEN cfg) = true ->
    x_upload_token req <> MY_SECRET_UPLOAD_TOKEN cfg ->
    upload_path cfg env req w
      (json 401 "Unauthorized: Invalid or missing upload token.")
      (emit (ConsoleWarn "Unauthorized upload attempt: Invalid or missing token.")
            w)
| path_no_file :
    token_accepted cfg req ->
    softwareFile req = None ->
    upload_path cfg env req w (json 400 "No file uploaded.") (emit MulterParse w)
| path_not_exe part :
    token_accepted cfg req ->
    softwareFile req = Some part ->
    Js.toLowerCase (Path.extname (originalname part)) <> ".exe" ->
    upload_path cfg env req w
      (json 400 "Only .exe files are allowed!")
      (emit (ConsoleError "Unknown upload error:") (emit MulterParse w))
| path_too_large part :
    token_accepted cfg req ->
    softwareFile req = Some part ->
    Js.toLowerCase (Path.extname (originalname part)) = ".exe" ->
    (fileSize_limit < part_size part)%N ->
    upload_path cfg env req w
      (json 400 "File upload error: File too large")
      {| uploads :=
           if unlink_fails env
           then <[filename env part := cut_at_limit part]> (uploads w)
           else delete (filename env part) (uploads w);
         metadata := metadata w;
         events := (events w
                    ++ [MulterParse; FsWriteUpload (filename env part);
                        FsUnlink (filename env part);
                        ConsoleError "Multer error:"])%list |}
| path_missing_name part :
    token_accepted cfg req ->
    softwareFile req = Some part ->
    valid_exe part ->
    Js.truthy (softwareName (fields req)) = false ->
    upload_path cfg env req w
      (json 400 "Software name is required.")
      {| uploads := if unlink_fails env
                    then <[filename env part := content part]> (uploads w)
                    else delete (filename env part) (uploads w);
         metadata := metadata w;
         events := (events w
                    ++ [MulterParse; FsWriteUpload (filename env part)]
                    ++ cleanup_events env (filename env part)
                         "Error deleting orphaned file:")%list |}
| path_read_failure part :
    token_accepted cfg req ->
    softwareFile req = Some part ->
    valid_exe part ->
    Js.truthy (softwareName (fields req)) = true ->
    read_failure env w ->
    upload_path cfg env req w
      (json 500 "Error saving software metadata.")
      {| uploads := if unlink_fails env
                    then <[filename env part := content part]> (uploads w)
                    else delete (filename env part) (uploads w);
         metadata := metadata w;
         events := (events w
                    ++ [MulterParse; FsWriteUpload (filename env part);
                        FsReadFile; ConsoleError "Error reading metadata:";
                        ConsoleError "Error saving metadata:"]
                    ++ cleanup_events env (filename env part)
                         "Error deleting file after metadata failure:")%list |}
| path_write_failure part :
    token_accepted cfg req ->
    softwareFile req = Some part ->
    valid_exe part ->
    Js.truthy (softwareName (fields req)) = true ->
    ~ read_failure env w ->
    writeFile_outcome env <> WriteOk ->
    upload_path cfg env req w
      (json 500 "Error saving software metadata.")
      {| uploads := if unlink_fails env
                    then <[filename env part := content part]> (uploads w)
                    else delete (filename env part) (uploads w);
         metadata := match writeFile_outcome env with
                     | WriteTorn => Some Malformed
                     | _ => metadata w
                     end;
         events := (events w
                    ++ [MulterParse; FsWriteUpload (filename env part)]
                    ++ read_events w
                    ++ [FsWriteFile; ConsoleError "Error writing metadata:";
                        ConsoleError "Error saving metadata:"]
                    ++ cleanup_events env (filename env part)
                         "Error deleting file after metadata failure:")%list |}
| path_success part :
    token_accepted cfg req ->
    softwareFile req = Some part ->
    valid_exe part ->
    Js.truthy (softwareName (fields req)) = true ->
    ~ read_failure env w ->
    writeFile_outcome env = WriteOk ->
    upload_path cfg env req w
      {| status := 201;
         payload := Created "Software uploaded successfully!"
                      (newSoftware env (stored_file env part) (fields req)) |}
      {| uploads := <[filename env part := content part]> (uploads w);
         metadata :=
           Some (JsonArray
                   (stored_records w
                    ++ [newSoftware env (stored_file env part) (fields req)]));
         events := (events w
                    ++ [MulterParse; FsWriteUpload (filename env part)]
                    ++ read_events w ++ [FsWriteFile])%list |}.

(** Every character of the string satisfies [p]. *)
Fixpoint all_chars (p : ascii -> bool) (s : string) : bool :=
  match s with
  | EmptyString => true
  | String c rest => p c && all_chars p rest
  end.

(** Neither a dot nor a slash. *)
Definition plain_char (c : ascii) : bool :=
  negb (Ascii.eqb c ".") && negb (Ascii.eqb c "/").

(** A computation only adds to the record of effects. *)
Definition appends {A} (m : M A) : Prop :=
  forall w r w', m w = (r, w') -> exists l, events w' = (events w ++ l)%list.

(** A computation ends without an uncaught exception. *)
Definition total {A} (m : M A) : Prop :=
  forall w, exists a w', m w = (Ok a, w').

(** ** Sample values *)

Module Sample.

Definition cfg : Config := {| UPLOAD_TOKEN := Some "s3cret" |}.
Definition cfg_unset : Config := {| UPLOAD_TOKEN := None |}.

Definition env : Env :=
  {| uuid_for_file := "123e4567-e89b-42d3-a456-426614174000";
     uuid_for_id := "9b2c1d3e-0f4a-4b5c-8d6e-7f8091a2b3c4";
     now := 1700000000000;
     readFile_fails := false; writeFile_outcome := WriteOk;
     unlink_fails := false; access_fails := false |}.

Definition env_later : Env :=
  {| uuid_for_file := "0f8fad5b-d9cb-469f-a165-70867728950e";
     uuid_for_id := "7c9e6679-7425-40de-944b-e07fc1f90ae7";
     now := 1700000360000;
     readFile_fails := false; writeFile_outcome := WriteOk;
     unlink_fails := false; access_fails := false |}.

Definition env_write_refused : Env :=
  {| uuid_for_file := uuid_for_file env; uuid_for_id := uuid_for_id env;
     now := now env; readFile_fails := false;
     writeFile_outcome := WriteRefused;
     unlink_fails := false; access_fails := false |}.

Definition exe : FilePart :=
  {| originalname := "Setup.EXE"; content := [Byte.x4d; Byte.x5a] |}.
Definition zip : FilePart :=
  {| originalname := "payload.zip"; content := [Byte.x50; Byte.x4b] |}.

Definition form (nm : Js.value) : Body :=
  {| softwareName := nm; softwareVersion := Some "1.0";
     softwareDescription := None |}.

Definition request (tok : Js.value) (f : option FilePart) (nm : Js.value)
  : UploadRequest :=
  {| x_upload_token := tok; softwareFile := f; fields := form nm |}.

Definition empty_store : World :=
  {| uploads := ∅; metadata := Some (JsonArray []); events := [] |}.
Definition broken_store : World :=
  {| uploads := ∅; metadata := Some Malformed; events := [] |}.

Definition stored_name : string := "123e4567-e89b-42d3-a456-426614174000.EXE".

Definition broken_store_with_file : World :=
  {| uploads := {[ stored_name := content exe ]};
     metadata := Some Malformed; events := [] |}.

End Sample.

(** The records arrived with a strictly increasing clock. *)
Definition oldest_first (l : list SoftwareRecord) : Prop :=
  StronglySorted (fun a b => (uploadedAt a < uploadedAt b)%Z) l.

(** The outcome of an upload that went through: everything the handler
    checks before it answers 201. *)
Definition upload_goes_through (cfg : Config) (env : Env)
           (req : UploadRequest) (w : World) : Prop :=
  token_accepted cfg req /\
  (exists part, softwareFile req = Some part /\ valid_exe part) /\
  Js.truthy (softwareName (fields req)) = true /\
  ~ read_failure env w /\
  writeFile_outcome env = WriteOk.

(** The effect changes the upload directory or the metadata file. *)
Definition is_mutation (e : Event) : bool :=
  match e with
  | FsWriteUpload _ | FsUnlink _ | FsWriteFile => true
  | _ => false
  end.

(** The name [res.download] sends a stored file under. *)
Definition sent_as (f : string) (records : list SoftwareRecord) : string :=
  match List.find (fun s => String.eqb (serverFilename s) f) records with
  | Some s => originalFilename s
  | None => f
  end.

Module Scenario.

Definition env_unlink_fails : Env :=
  {| uuid_for_file := uuid_for_file Sample.env;
     uuid_for_id := uuid_for_id Sample.env;
     now := now Sample.env; readFile_fails := false;
     writeFile_outcome := WriteOk;
     unlink_fails := true; access_fails := false |}.

Definition env_access_fails : Env :=
  {| uuid_for_file := uuid_for_file Sample.env;
     uuid_for_id := uuid_for_id Sample.env;
     now := now Sample.env; readFile_fails := false;
     writeFile_outcome := WriteOk;
     unlink_fails := false; access_fails := true |}.

Definition upload_app : UploadRequest :=
  Sample.request (Some "s3cret") (Some Sample.exe) (Some "App").

Definition upload_tool : UploadRequest :=
  Sample.request (Some "s3cret") (Some Sample.exe) (Some "Tool").

Definition no_store : World :=
  {| uploads := ∅; metadata := None; events := [] |}.

Definition app_record : SoftwareRecord :=
  newSoftware Sample.env (stored_file Sample.env Sample.exe)
              (Sample.form (Some "App")).

Definition tool_record : SoftwareRecord :=
  newSoftware Sample.env_later (stored_file Sample.env_later Sample.exe)
              (Sample.form (Some "Tool")).

(** A store holding one record, and the file it names. *)
Definition one_app : World :=
  {| uploads := {[ Sample.stored_name := content Sample.exe ]};
     metadata := Some (JsonArray [app_record]); events := [] |}.

(** Two records in order of arrival, and their files. *)
Definition two_apps : World :=
  {| uploads := {[ Sample.stored_name := content Sample.exe;
                   "0f8fad5b-d9cb-469f-a165-70867728950e.EXE" := content Sample.exe ]};
     metadata := Some (JsonArray [app_record; tool_record]); events := [] |}.

(** A file in the upload directory that no record names. *)
Definition orphan : World :=
  {| uploads := {[ "orphan.exe" := content Sample.exe ]};
     metadata := Some (JsonArray [app_record]); events := [] |}.

End Scenario.

(** * Properties *)

Example extname_setup : Path.extname "Setup.EXE" = ".EXE".
Proof. reflexivity. Qed.
Example extname_two_dots : Path.extname "index.coffee.md" = ".md".
Proof. reflexivity. Qed.
Example extname_trailing_dot : Path.extname "index." = ".".
Proof. reflexivity. Qed.
Example extname_none : Path.extname "index" = "".
Proof. reflexivity. Qed.
Example extname_dotfile : Path.extname ".index" = "".
Proof. reflexivity. Qed.
Example extname_dotfile_md : Path.extname ".index.md" = ".md".
Proof. reflexivity. Qed.
Example extname_dotdot : Path.extname "a.exe/.." = "".
Proof. reflexivity. Qed.
Example extname_trailing_slash : Path.extname "dir/tool.exe//" = ".exe".
Proof. reflexivity. Qed.
Example includes_dotdot : Js.includes "../../etc/passwd" ".." = true.
Proof. reflexivity. Qed.
Example includes_none : Js.includes "tool.exe" ".." = false.
Proof. reflexivity. Qed.
Example lower_EXE : Js.toLowerCase ".ExE" = ".exe".
Proof. reflexivity. Qed.

Example sample_uuid_shape : is_uuid (uuid_for_file Sample.env) = true.
Proof. reflexivity. Qed.

(** ** Monad and observation lemmas *)

Lemma emitted_app (w w' : World) (l : list Event) :
  events w' = (events w ++ l)%list -> emitted w w' = l.
Proof.
  intros H. unfold emitted. rewrite H. apply drop_app_length.
Qed.

Lemma emitted_emit (e : Event) (w : World) : emitted w (emit e w) = [e].
Proof. now apply emitted_app. Qed.

Lemma emitted_refl (w : World) : emitted w w = [].
Proof. apply emitted_app. now rewrite app_nil_r. Qed.

Lemma strict_neq_false (a b : Js.value) :
  Js.strict_neq a b = false <-> a = b.
Proof.
  destruct a as [x|], b as [y|]; simpl; split; intros H;
    try discriminate; try reflexivity.
  - apply negb_false_iff, String.eqb_eq in H. now subst.
  - injection H as ->. now rewrite String.eqb_refl.
Qed.

Lemma strict_neq_true (a b : Js.value) :
  Js.strict_neq a b = true <-> a <> b.
Proof.
  split.
  - intros H E. apply strict_neq_false in E. congruence.
  - intros H. destruct (Js.strict_neq a b) eqn:E; [reflexivity|].
    apply strict_neq_false in E. contradiction.
Qed.

Lemma prefix_spec (sub s : string) :
  String.prefix sub s = true <-> exists post, s = sub ++ post.
Proof.
  revert s. induction sub as [|c sub IH]; intros s; simpl.
  - split; [intros _; now exists s | now destruct s].
  - destruct s as [|d s].
    + split; [discriminate | intros [post H]; discriminate].
    + simpl. destruct (ascii_dec c d) as [->|Hne].
      * rewrite IH. split; intros [post H]; exists post.
        -- now subst.
        -- now injection H.
      * split; [discriminate | intros [post H]; injection H; congruence].
Qed.

Lemma includes_spec (s sub : string) :
  Js.includes s sub = true <-> exists pre post, s = pre ++ sub ++ post.
Proof.
  induction s as [|c s IH]; cbn [Js.includes].
  - rewrite orb_false_r, prefix_spec. split.
    + intros [post H]. now exists "", post.
    + intros [pre [post H]]. destruct pre; [now exists post | discriminate].
  - rewrite orb_true_iff, prefix_spec, IH. split.
    + intros [[post H] | [pre [post H]]].
      * now exists "", post.
      * exists (String c pre), post. simpl. now rewrite H.
    + intros [pre [post H]]. destruct pre as [|d pre]; simpl in H.
      * left. now exists post.
      * right. injection H as _ H. now exists pre, post.
Qed.

Ltac unfold_monad :=
  unfold readMetadata, writeMetadata, fs_readFile, fs_writeFile, fs_unlink,
    fs_access, JSON_parse, console_error, console_warn, try_catch, bind, ret,
    throw, emit in *.

Ltac case_split :=
  repeat match goal with
         | |- context [match ?x with _ => _ end] => destruct x eqn:?
         end.

(** ** The token gate of the upload handler *)

Lemma upload_unconfigured cfg env req w :
  Js.truthy (MY_SECRET_UPLOAD_TOKEN cfg) = false ->
  upload_handler cfg env req w =
  (Ok (json 500 "Server configuration error regarding upload token."),
   emit (ConsoleError
           "UPLOAD_TOKEN ist serverseitig nicht konfiguriert. Upload abgelehnt.")
        w).
Proof. intros H. unfold upload_handler. now rewrite H. Qed.

Lemma upload_bad_token cfg env req w :
  Js.truthy (MY_SECRET_UPLOAD_TOKEN cfg) = true ->
  x_upload_token req <> MY_SECRET_UPLOAD_TOKEN cfg ->
  upload_handler cfg env req w =
  (Ok (json 401 "Unauthorized: Invalid or missing upload token."),
   emit (ConsoleWarn "Unauthorized upload attempt: Invalid or missing token.") w).
Proof.
  intros H Hne. unfold upload_handler. rewrite H. simpl.
  apply strict_neq_true in Hne. now rewrite Hne.
Qed.

Lemma upload_accepted cfg env req w :
  token_accepted cfg req ->
  upload_handler cfg env req w =
  bind (upload_single env req) (upload_callback env) w.
Proof.
  intros [H Heq]. unfold upload_handler. rewrite H. simpl.
  apply strict_neq_false in Heq. now rewrite Heq.
Qed.

Lemma upload_single_emits env req w :
  exists out w1 l,
    upload_single env req w = (Ok out, w1) /\
    events w1 = (events w ++ MulterParse :: l)%list.
Proof.
  unfold upload_single, emit. case_split; simpl;
    do 3 eexists; (split; [reflexivity|]); simpl;
    rewrite <- ?app_assoc; reflexivity.
Qed.

Lemma appends_ret {A} (a : A) : appends (ret a).
Proof. intros w r w' [= <- <-]. exists []. now rewrite app_nil_r. Qed.

Lemma appends_throw {A} (e : JsError) : appends (@throw A e).
Proof. intros w r w' [= <- <-]. exists []. now rewrite app_nil_r. Qed.

Lemma appends_bind {A B} (m : M A) (k : A -> M B) :
  appends m -> (forall a, appends (k a)) -> appends (bind m k).
Proof.
  intros Hm Hk w r w' H. unfold bind in H.
  destruct (m w) as [[a|e] w1] eqn:E.
  - destruct (Hm _ _ _ E) as [l1 H1]. destruct (Hk a _ _ _ H) as [l2 H2].
    exists (l1 ++ l2)%list. now rewrite H2, H1, app_assoc.
  - injection H as <- <-. eauto.
Qed.

Lemma appends_try_catch {A} (body : M A) (handler : JsError -> M A) :
  appends body -> (forall e, appends (handler e)) ->
  appends (try_catch body handler).
Proof.
  intros Hm Hk w r w' H. unfold try_catch in H.
  destruct (body w) as [[a|e] w1] eqn:E.
  - injection H as <- <-. eauto.
  - destruct (Hm _ _ _ E) as [l1 H1]. destruct (Hk e _ _ _ H) as [l2 H2].
    exists (l1 ++ l2)%list. now rewrite H2, H1, app_assoc.
Qed.

Lemma appends_console_error msg : appends (console_error msg).
Proof. intros w r w' [= <- <-]. now exists [ConsoleError msg]. Qed.

Lemma appends_console_warn msg : appends (console_warn msg).
Proof. intros w r w' [= <- <-]. now exists [ConsoleWarn msg]. Qed.

Lemma appends_fs_readFile env : appends (fs_readFile env).
Proof.
  intros w r w' H. unfold fs_readFile in H. exists [FsReadFile].
  destruct (readFile_fails env); [now injection H as <- <-|].
  simpl in H. destruct (metadata w); now injection H as <- <-.
Qed.

Lemma appends_JSON_parse data : appends (JSON_parse data).
Proof. destruct data; [apply appends_throw | apply appends_ret]. Qed.

Lemma appends_fs_writeFile env data : appends (fs_writeFile env data).
Proof.
  intros w r w' H. unfold fs_writeFile in H. exists [FsWriteFile].
  destruct (writeFile_outcome env); now injection H as <- <-.
Qed.

Lemma appends_fs_unlink env f : appends (fs_unlink env f).
Proof.
  intros w r w' H. unfold fs_unlink in H. exists [FsUnlink f].
  destruct (unlink_fails env); [now injection H as <- <-|].
  simpl in H. destruct (uploads w !! f); now injection H as <- <-.
Qed.

Lemma appends_fs_access env f : appends (fs_access env f).
Proof.
  intros w r w' H. unfold fs_access in H. exists [FsAccess f].
  destruct (access_fails env); [now injection H as <- <-|].
  simpl in H. destruct (uploads w !! f); now injection H as <- <-.
Qed.

Lemma appends_readMetadata env : appends (readMetadata env).
Proof.
  apply appends_try_catch.
  - apply appends_bind; [apply appends_fs_readFile | apply appends_JSON_parse].
  - intros e. apply appends_bind; [apply appends_console_error|].
    intros _. destruct e; (apply appends_ret || apply appends_throw).
Qed.

Lemma appends_writeMetadata env data : appends (writeMetadata env data).
Proof.
  apply appends_try_catch; [apply appends_fs_writeFile|].
  intros e. apply appends_bind; [apply appends_console_error|].
  intros _. apply appends_throw.
Qed.

Create HintDb effects.
#[local] Hint Resolve appends_ret appends_throw appends_console_error
  appends_console_warn appends_fs_unlink appends_fs_access
  appends_readMetadata appends_writeMetadata : effects.

Lemma appends_upload_callback env out : appends (upload_callback env out).
Proof.
  unfold upload_callback.
  destruct out as [[msg|msg] | [file|] body]; auto with effects.
  - apply appends_bind; auto with effects.
  - apply appends_bind; auto with effects.
  - destruct (negb (Js.truthy (softwareName body))).
    + apply appends_bind; auto with effects.
      apply appends_try_catch; auto with effects.
    + apply appends_try_catch.
      * apply appends_bind; auto with effects. intros l.
        apply appends_bind; auto with effects.
      * intros e. apply appends_bind; auto with effects. intros _.
        apply appends_bind; auto with effects.
        apply appends_try_catch; auto with effects.
Qed.

Lemma total_ret {A} (a : A) : total (ret a).
Proof. intros w. now exists a, w. Qed.

Lemma total_bind {A B} (m : M A) (k : A -> M B) :
  total m -> (forall a, total (k a)) -> total (bind m k).
Proof.
  intros Hm Hk w. unfold bind. destruct (Hm w) as (a & w1 & ->). apply Hk.
Qed.

Lemma total_try_catch {A} (body : M A) (handler : JsError -> M A) :
  (forall e, total (handler e)) -> total (try_catch body handler).
Proof.
  intros Hk w. unfold try_catch. destruct (body w) as [[a|e] w1]; [eauto|].
  apply Hk.
Qed.

Lemma total_console_error msg : total (console_error msg).
Proof. intros w. now eexists _, _. Qed.

#[local] Hint Resolve total_ret total_console_error : effects.

Lemma total_upload_callback env out : total (upload_callback env out).
Proof.
  unfold upload_callback.
  destruct out as [[msg|msg] | [file|] body]; auto with effects.
  - apply total_bind; auto with effects.
  - apply total_bind; auto with effects.
  - destruct (negb (Js.truthy (softwareName body))).
    + apply total_bind; auto with effects.
      apply total_try_catch; auto with effects.
    + apply total_try_catch. intros e.
      apply total_bind; auto with effects. intros _.
      apply total_bind; auto with effects.
      apply total_try_catch; auto with effects.
Qed.

Lemma upload_callback_emits env out w :
  exists r w' l,
    upload_callback env out w = (Ok r, w') /\
    events w' = (events w ++ l)%list.
Proof.
  destruct (total_upload_callback env out w) as (r & w' & H).
  destruct (appends_upload_callback env out _ _ _ H) as [l Hl]. eauto 6.
Qed.

(** C1 (as stated): a request without the right token is said to be
    answered with an authorization failure whether or not a secret is
    configured.  With no secret configured the answer to a wrong token is
    the configuration error 500, not 401. *)
Lemma upload_without_secret_is_not_unauthorized :
  x_upload_token (Sample.request (Some "guess") (Some Sample.exe) (Some "App"))
    <> MY_SECRET_UPLOAD_TOKEN Sample.cfg_unset /\
  fst (upload_handler Sample.cfg_unset Sample.env
         (Sample.request (Some "guess") (Some Sample.exe) (Some "App"))
         Sample.empty_store)
  = Ok (json 500 "Server configuration error regarding upload token.") /\
  status (json 500 "Server configuration error regarding upload token.") <> 401.
Proof. repeat split; [discriminate | discriminate]. Qed.

(** C1 (amended): an upload whose token differs from the configured
    secret, or that arrives while no secret is configured, is refused
    before anything is parsed: no file is written and the metadata store
    is left as it was.  The answer is the authorization error 401 when a
    secret is configured and the configuration error 500 when none is,
    so the two cases are told apart. *)
Theorem upload_refused_without_valid_token cfg env req w :
  Js.truthy (MY_SECRET_UPLOAD_TOKEN cfg) = false \/
  x_upload_token req <> MY_SECRET_UPLOAD_TOKEN cfg ->
  exists r w',
    upload_handler cfg env req w = (Ok r, w') /\
    uploads w' = uploads w /\
    metadata w' = metadata w /\
    existsb is_parse (emitted w w') = false /\
    existsb is_fs_event (emitted w w') = false /\
    (Js.truthy (MY_SECRET_UPLOAD_TOKEN cfg) = true ->
     r = json 401 "Unauthorized: Invalid or missing upload token.") /\
    (Js.truthy (MY_SECRET_UPLOAD_TOKEN cfg) = false ->
     r = json 500 "Server configuration error regarding upload token.") /\
    (status r = 401 <-> Js.truthy (MY_SECRET_UPLOAD_TOKEN cfg) = true) /\
    (status r = 500 <-> Js.truthy (MY_SECRET_UPLOAD_TOKEN cfg) = false).
Proof.
  intros H. destruct (Js.truthy (MY_SECRET_UPLOAD_TOKEN cfg)) eqn:Hs.
  - destruct H as [H|H]; [discriminate|].
    do 2 eexists. split; [now apply upload_bad_token|].
    rewrite emitted_emit. simpl.
    repeat split; try reflexivity; try discriminate.
  - do 2 eexists. split; [now apply upload_unconfigured|].
    rewrite emitted_emit. simpl.
    repeat split; try reflexivity; try discriminate.
Qed.

Lemma upload_refused_without_valid_token_witness :
  (Js.truthy (MY_SECRET_UPLOAD_TOKEN Sample.cfg) = false \/
   x_upload_token (Sample.request None (Some Sample.exe) (Some "App"))
     <> MY_SECRET_UPLOAD_TOKEN Sample.cfg) /\
  exists r w',
    upload_handler Sample.cfg Sample.env
      (Sample.request None (Some Sample.exe) (Some "App")) Sample.empty_store
    = (Ok r, w') /\
    uploads w' = uploads Sample.empty_store /\
    metadata w' = metadata Sample.empty_store /\
    status r = 401.
Proof.
  assert (H : Js.truthy (MY_SECRET_UPLOAD_TOKEN Sample.cfg) = false \/
              x_upload_token (Sample.request None (Some Sample.exe) (Some "App"))
                <> MY_SECRET_UPLOAD_TOKEN Sample.cfg)
    by (right; discriminate).
  split; [exact H|].
  destruct (upload_refused_without_valid_token Sample.cfg Sample.env
              (Sample.request None (Some Sample.exe) (Some "App"))
              Sample.empty_store H)
    as (r & w' & Hrun & Hup & Hmeta & _ & _ & _ & _ & H401 & _).
  exists r, w'. repeat split; try assumption.
  apply H401. reflexivity.
Defined.

Lemma upload_accepted_emits cfg env req w :
  token_accepted cfg req ->
  exists r w' rest,
    upload_handler cfg env req w = (Ok r, w') /\
    emitted w w' = MulterParse :: rest.
Proof.
  intros Hacc. rewrite (upload_accepted _ _ _ _ Hacc). unfold bind.
  destruct (upload_single_emits env req w) as (out & w1 & l1 & -> & H1).
  destruct (upload_callback_emits env out w1) as (r & w' & l2 & -> & H2).
  exists r, w', (l1 ++ l2)%list. split; [reflexivity|].
  apply emitted_app. rewrite H2, H1, <- app_assoc. reflexivity.
Qed.

(** C2: the upload handler first checks that a secret is configured
    (else 500, a configuration error, whatever the token), then that the
    supplied token equals it exactly (else 401); neither failure starts
    the multipart parser, and when both checks pass parsing is the first
    thing that happens. *)
Theorem upload_checks_precede_parsing cfg env req w :
  exists r w',
    upload_handler cfg env req w = (Ok r, w') /\
    (Js.truthy (MY_SECRET_UPLOAD_TOKEN cfg) = false ->
     r = json 500 "Server configuration error regarding upload token." /\
     emitted w w' =
     [ConsoleError
        "UPLOAD_TOKEN ist serverseitig nicht konfiguriert. Upload abgelehnt."]) /\
    (Js.truthy (MY_SECRET_UPLOAD_TOKEN cfg) = true ->
     x_upload_token req <> MY_SECRET_UPLOAD_TOKEN cfg ->
     r = json 401 "Unauthorized: Invalid or missing upload token." /\
     emitted w w' =
     [ConsoleWarn "Unauthorized upload attempt: Invalid or missing token."]) /\
    (Js.truthy (MY_SECRET_UPLOAD_TOKEN cfg) = true ->
     x_upload_token req = MY_SECRET_UPLOAD_TOKEN cfg ->
     exists rest, emitted w w' = MulterParse :: rest) /\
    (existsb is_parse (emitted w w') = true <-> token_accepted cfg req).
Proof.
  destruct (Js.truthy (MY_SECRET_UPLOAD_TOKEN cfg)) eqn:Hs.
  - destruct (decide (x_upload_token req = MY_SECRET_UPLOAD_TOKEN cfg))
      as [Heq|Hne].
    + assert (Hacc : token_accepted cfg req) by (split; assumption).
      destruct (upload_accepted_emits cfg env req w Hacc)
        as (r & w' & rest & Hrun & Hem).
      exists r, w'. split; [exact Hrun|]. rewrite Hem.
      repeat split; try discriminate; try contradiction; eauto.
    + do 2 eexists. split; [now apply upload_bad_token|].
      rewrite emitted_emit. repeat split; try discriminate; try contradiction.
      intros [_ H]. contradiction.
  - do 2 eexists. split; [now apply upload_unconfigured|].
    rewrite emitted_emit. repeat split; try discriminate.
    intros [H _]. congruence.
Qed.

Lemma upload_checks_precede_parsing_witness :
  exists r w',
    upload_handler Sample.cfg_unset Sample.env
      (Sample.request (Some "s3cret") (Some Sample.exe) (Some "App"))
      Sample.empty_store = (Ok r, w') /\
    r = json 500 "Server configuration error regarding upload token." /\
    existsb is_parse (emitted Sample.empty_store w') = false.
Proof.
  destruct (upload_checks_precede_parsing Sample.cfg_unset Sample.env
              (Sample.request (Some "s3cret") (Some Sample.exe) (Some "App"))
              Sample.empty_store)
    as (r & w' & Hrun & H500 & _ & _ & _).
  exists r, w'. destruct (H500 eq_refl) as [Hr Hem].
  repeat split; try assumption. now rewrite Hem.
Defined.

(** ** Download: the file-name check *)

(** C8: a download whose [serverFilename] contains a path separator or
    the parent-directory token [..] is answered 400 'Invalid filename.'
    and the world is exactly as before: no filesystem call was made. *)
Theorem download_rejects_unsafe_name env fname w :
  (exists pre post, fname = pre ++ "/" ++ post) \/
  (exists pre post, fname = pre ++ ".." ++ post) ->
  download_handler env fname w = (Ok (send 400 "Invalid filename."), w) /\
  existsb is_fs_event (emitted w w) = false.
Proof.
  intros H. rewrite emitted_refl. split; [|reflexivity].
  assert (Hinc : Js.includes fname ".." || Js.includes fname "/" = true).
  { apply orb_true_iff. destruct H as [H|H]; [right|left];
      now apply includes_spec. }
  unfold download_handler, try_catch. now rewrite Hinc.
Qed.

Lemma download_rejects_unsafe_name_witness :
  (download_handler Sample.env "../../etc/passwd" Sample.empty_store
   = (Ok (send 400 "Invalid filename."), Sample.empty_store)) /\
  (download_handler Sample.env "a/b" Sample.broken_store_with_file
   = (Ok (send 400 "Invalid filename."), Sample.broken_store_with_file)).
Proof.
  split.
  - apply (download_rejects_unsafe_name Sample.env "../../etc/passwd").
    right. exists "", "/../etc/passwd". reflexivity.
  - apply (download_rejects_unsafe_name Sample.env "a/b").
    left. exists "a", "b". reflexivity.
Defined.

(** ** Upload: what happens after the token gate *)

Lemma upload_no_file cfg env req w :
  token_accepted cfg req ->
  softwareFile req = None ->
  upload_handler cfg env req w =
  (Ok (json 400 "No file uploaded."), emit MulterParse w).
Proof.
  intros Hacc Hfile. rewrite (upload_accepted _ _ _ _ Hacc).
  unfold bind, upload_single. now rewrite Hfile.
Qed.



Lemma upload_single_valid env req w part :
  softwareFile req = Some part ->
  valid_exe part ->
  upload_single env req w =
  (Ok (MulterDone (Some (stored_file env part)) (fields req)),
   after_store env part w).
Proof.
  intros Hfile [Hext Hsize]. unfold upload_single, fileFilter.
  rewrite Hfile, Hext. simpl negb. cbv iota.
  apply N.ltb_ge in Hsize. rewrite Hsize.
  unfold after_store, stored_file, emit. simpl.
  now rewrite <- app_assoc.
Qed.

Lemma upload_single_rejected env req w part :
  softwareFile req = Some part ->
  Js.toLowerCase (Path.extname (originalname part)) <> ".exe" ->
  upload_single env req w =
  (Ok (MulterFailed (OtherError "Only .exe files are allowed!")),
   emit MulterParse w).
Proof.
  intros Hfile Hext. unfold upload_single, fileFilter. rewrite Hfile.
  apply String.eqb_neq in Hext. now rewrite Hext.
Qed.

(** The best-effort removal of a file that is there. *)
Lemma cleanup_present env f msg w c :
  uploads w !! f = Some c ->
  try_catch (fs_unlink env f) (fun _ => console_error msg) w =
  (Ok tt,
   {| uploads := if unlink_fails env then uploads w else delete f (uploads w);
      metadata := metadata w;
      events := (events w ++ cleanup_events env f msg)%list |}).
Proof.
  intros Hc. unfold try_catch, fs_unlink, cleanup_events, console_error, emit.
  destruct (unlink_fails env); simpl.
  - now rewrite <- app_assoc.
  - now rewrite Hc.
Qed.

Lemma readMetadata_ok env w l :
  readFile_fails env = false ->
  metadata w = Some (JsonArray l) ->
  readMetadata env w = (Ok l, emit FsReadFile w).
Proof.
  intros Hr Hm. unfold readMetadata, try_catch, bind, fs_readFile.
  rewrite Hr. simpl. now rewrite Hm.
Qed.

Lemma readMetadata_absent env w :
  readFile_fails env = false ->
  metadata w = None ->
  readMetadata env w =
  (Ok [], emit (ConsoleError "Error reading metadata:") (emit FsReadFile w)).
Proof.
  intros Hr Hm. unfold readMetadata, try_catch, bind, fs_readFile.
  rewrite Hr. simpl. now rewrite Hm.
Qed.

Lemma readMetadata_fails env w :
  read_failure env w ->
  exists e,
    readMetadata env w =
    (Throw e, emit (ConsoleError "Error reading metadata:") (emit FsReadFile w)).
Proof.
  intros H. unfold readMetadata, try_catch, bind, fs_readFile.
  destruct (readFile_fails env) eqn:Hr.
  - now exists EIO.
  - destruct H as [H|H]; [congruence|]. simpl. rewrite H.
    now exists SyntaxError.
Qed.

(** Whenever [readMetadata] returns, it returns the stored records. *)
Lemma readMetadata_returns env w :
  ~ read_failure env w ->
  readMetadata env w =
  (Ok (stored_records w),
   {| uploads := uploads w; metadata := metadata w;
      events := (events w ++ read_events w)%list |}).
Proof.
  intros H. unfold read_failure in H.
  destruct (readFile_fails env) eqn:Hr; [tauto|].
  unfold stored_records, read_events.
  destruct (metadata w) as [[|l]|] eqn:Hm; [tauto| |].
  - rewrite (readMetadata_ok _ _ l) by assumption. unfold emit.
    now rewrite Hm.
  - rewrite readMetadata_absent by assumption. unfold emit. simpl.
    now rewrite <- app_assoc, Hm.
Qed.

Lemma writeMetadata_ok env data w :
  writeFile_outcome env = WriteOk ->
  writeMetadata env data w =
  (Ok tt, {| uploads := uploads w; metadata := Some (JsonArray data);
             events := (events w ++ [FsWriteFile])%list |}).
Proof.
  intros H. unfold writeMetadata, try_catch, fs_writeFile. now rewrite H.
Qed.

Lemma writeMetadata_fails env data w :
  writeFile_outcome env <> WriteOk ->
  writeMetadata env data w =
  (Throw EIO,
   {| uploads := uploads w;
      metadata := match writeFile_outcome env with
                  | WriteTorn => Some Malformed
                  | _ => metadata w
                  end;
      events := (events w ++ [FsWriteFile;
                              ConsoleError "Error writing metadata:"])%list |}).
Proof.
  intros H. unfold writeMetadata, try_catch, fs_writeFile, bind, console_error,
    throw, emit.
  destruct (writeFile_outcome env); [contradiction| |]; simpl;
    now rewrite <- app_assoc.
Qed.

(** *** The four ways an accepted upload of a valid file ends *)

Section StoredUpload.

Variables (cfg : Config) (env : Env) (req : UploadRequest) (w : World).
Variable part : FilePart.
Hypothesis Hacc : token_accepted cfg req.
Hypothesis Hfile : softwareFile req = Some part.
Hypothesis Hvalid : valid_exe part.

Lemma upload_stored :
  upload_handler cfg env req w =
  upload_callback env (MulterDone (Some (stored_file env part)) (fields req))
                  (after_store env part w).
Proof.
  rewrite (upload_accepted _ _ _ _ Hacc). unfold bind.
  now rewrite (upload_single_valid _ _ _ _ Hfile Hvalid).
Qed.

Lemma stored_present :
  uploads (after_store env part w) !! filename env part = Some (content part).
Proof. apply lookup_insert_eq. Qed.

Lemma upload_stored_missing_name :
  Js.truthy (softwareName (fields req)) = false ->
  upload_handler cfg env req w =
  (Ok (json 400 "Software name is required."),
   {| uploads := if unlink_fails env
                 then <[filename env part := content part]> (uploads w)
                 else delete (filename env part) (uploads w);
      metadata := metadata w;
      events := (events w
                 ++ [MulterParse; FsWriteUpload (filename env part)]
                 ++ cleanup_events env (filename env part) "Error deleting orphaned file:")%list |}).
Proof.
  intros Hname. rewrite upload_stored. unfold upload_callback.
  rewrite Hname. cbn [negb]. unfold bind.
  change (file_filename (stored_file env part)) with (filename env part).
  rewrite (cleanup_present _ _ _ _ _ stored_present). unfold ret.
  simpl. rewrite delete_insert_eq, <- app_assoc. reflexivity.
Qed.

Lemma upload_stored_read_failure :
  Js.truthy (softwareName (fields req)) = true ->
  read_failure env w ->
  upload_handler cfg env req w =
  (Ok (json 500 "Error saving software metadata."),
   {| uploads := if unlink_fails env
                 then <[filename env part := content part]> (uploads w)
                 else delete (filename env part) (uploads w);
      metadata := metadata w;
      events := (events w
                 ++ [MulterParse; FsWriteUpload (filename env part); FsReadFile;
                     ConsoleError "Error reading metadata:";
                     ConsoleError "Error saving metadata:"]
                 ++ cleanup_events env (filename env part)
                      "Error deleting file after metadata failure:")%list |}).
Proof.
  intros Hname Hread. rewrite upload_stored. unfold upload_callback.
  rewrite Hname. cbn [negb].
  assert (Hread' : read_failure env (after_store env part w)) by exact Hread.
  destruct (readMetadata_fails _ _ Hread') as [e He].
  unfold try_catch at 1. unfold bind at 1. rewrite He.
  unfold bind at 1. unfold console_error at 1. unfold bind at 1.
  change (file_filename (stored_file env part)) with (filename env part).
  erewrite cleanup_present by (simpl; apply lookup_insert_eq).
  unfold ret. simpl. rewrite delete_insert_eq.
  rewrite <- !app_assoc. reflexivity.
Qed.

Lemma upload_stored_write_failure :
  Js.truthy (softwareName (fields req)) = true ->
  ~ read_failure env w ->
  writeFile_outcome env <> WriteOk ->
  upload_handler cfg env req w =
  (Ok (json 500 "Error saving software metadata."),
   {| uploads := if unlink_fails env
                 then <[filename env part := content part]> (uploads w)
                 else delete (filename env part) (uploads w);
      metadata := match writeFile_outcome env with
                  | WriteTorn => Some Malformed
                  | _ => metadata w
                  end;
      events := (events w
                 ++ [MulterParse; FsWriteUpload (filename env part)]
                 ++ read_events w
                 ++ [FsWriteFile; ConsoleError "Error writing metadata:";
                     ConsoleError "Error saving metadata:"]
                 ++ cleanup_events env (filename env part)
                      "Error deleting file after metadata failure:")%list |}).
Proof.
  intros Hname Hread Hwrite. rewrite upload_stored. unfold upload_callback.
  rewrite Hname. cbn [negb].
  assert (Hread' : ~ read_failure env (after_store env part w)) by exact Hread.
  unfold try_catch at 1. unfold bind at 1.
  rewrite (readMetadata_returns _ _ Hread').
  unfold bind at 1. rewrite (writeMetadata_fails _ _ _ Hwrite).
  unfold bind at 1. unfold console_error at 1. unfold bind at 1.
  change (file_filename (stored_file env part)) with (filename env part).
  erewrite cleanup_present by (simpl; apply lookup_insert_eq).
  unfold ret. simpl. rewrite delete_insert_eq.
  rewrite <- !app_assoc. reflexivity.
Qed.

Lemma upload_stored_success :
  Js.truthy (softwareName (fields req)) = true ->
  ~ read_failure env w ->
  writeFile_outcome env = WriteOk ->
  upload_handler cfg env req w =
  (Ok {| status := 201;
         payload := Created "Software uploaded successfully!"
                      (newSoftware env (stored_file env part) (fields req)) |},
   {| uploads := <[filename env part := content part]> (uploads w);
      metadata :=
        Some (JsonArray
                (stored_records w
                 ++ [newSoftware env (stored_file env part) (fields req)]));
      events := (events w
                 ++ [MulterParse; FsWriteUpload (filename env part)]
                 ++ read_events w ++ [FsWriteFile])%list |}).
Proof.
  intros Hname Hread Hwrite. rewrite upload_stored. unfold upload_callback.
  rewrite Hname. cbn [negb].
  assert (Hread' : ~ read_failure env (after_store env part w)) by exact Hread.
  unfold try_catch at 1. unfold bind at 1.
  rewrite (readMetadata_returns _ _ Hread').
  unfold bind at 1. rewrite (writeMetadata_ok _ _ _ Hwrite).
  unfold ret. simpl. rewrite <- !app_assoc. reflexivity.
Qed.

End StoredUpload.

Lemma upload_single_too_large env req w part :
  softwareFile req = Some part ->
  Js.toLowerCase (Path.extname (originalname part)) = ".exe" ->
  (fileSize_limit < part_size part)%N ->
  upload_single env req w =
  (Ok (MulterFailed (MulterError "File too large")),
   {| uploads :=
        if unlink_fails env
        then <[filename env part := cut_at_limit part]> (uploads w)
        else delete (filename env part) (uploads w);
      metadata := metadata w;
      events := (events w
                 ++ [MulterParse; FsWriteUpload (filename env part);
                     FsUnlink (filename env part)])%list |}).
Proof.
  intros Hfile Hext Hsize. unfold upload_single, fileFilter.
  rewrite Hfile, Hext. simpl negb. cbv iota.
  apply N.ltb_lt in Hsize. rewrite Hsize. unfold emit. simpl.
  now rewrite <- !app_assoc.
Qed.

Lemma read_failure_dec env w : {read_failure env w} + {~ read_failure env w}.
Proof.
  unfold read_failure. destruct (readFile_fails env); [left; now left|].
  destruct (metadata w) as [[|l]|]; [left; now right | right | right];
    intros [H|H]; discriminate.
Qed.

Lemma WriteOutcome_dec (a b : WriteOutcome) : {a = b} + {a <> b}.
Proof. decide equality. Qed.

(** Every run of the upload handler answers, along one of the paths. *)
Lemma upload_handler_path cfg env req w :
  exists r w',
    upload_handler cfg env req w = (Ok r, w') /\ upload_path cfg env req w r w'.
Proof.
  destruct (Js.truthy (MY_SECRET_UPLOAD_TOKEN cfg)) eqn:Hs.
  2: { do 2 eexists. split; [now apply upload_unconfigured|].
       now apply path_unconfigured. }
  destruct (decide (x_upload_token req = MY_SECRET_UPLOAD_TOKEN cfg))
    as [Heq|Hne].
  2: { do 2 eexists. split; [now apply upload_bad_token|].
       now apply path_bad_token. }
  assert (Hacc : token_accepted cfg req) by (split; assumption).
  destruct (softwareFile req) as [part|] eqn:Hfile.
  2: { do 2 eexists. split; [now apply upload_no_file|].
       now apply path_no_file. }
  destruct (decide (Js.toLowerCase (Path.extname (originalname part)) = ".exe"))
    as [Hext|Hext].
  2: { do 2 eexists. split; [|now apply (path_not_exe _ _ _ _ part)].
       rewrite (upload_accepted _ _ _ _ Hacc). unfold bind.
       now rewrite (upload_single_rejected _ _ _ _ Hfile Hext). }
  destruct (N.ltb fileSize_limit (part_size part)) eqn:Hsize.
  { apply N.ltb_lt in Hsize.
    do 2 eexists. split; [|now apply (path_too_large _ _ _ _ part)].
    rewrite (upload_accepted _ _ _ _ Hacc). unfold bind.
    rewrite (upload_single_too_large _ _ _ _ Hfile Hext Hsize).
    unfold upload_callback, bind, console_error, ret, emit. simpl.
    now rewrite <- app_assoc. }
  apply N.ltb_ge in Hsize.
  assert (Hvalid : valid_exe part) by (split; assumption).
  destruct (Js.truthy (softwareName (fields req))) eqn:Hname.
  2: { do 2 eexists.
       split; [now apply (upload_stored_missing_name _ _ _ _ part)|].
       now apply path_missing_name. }
  destruct (read_failure_dec env w) as [Hread|Hread].
  { do 2 eexists.
    split; [now apply (upload_stored_read_failure _ _ _ _ part)|].
    now apply path_read_failure. }
  destruct (WriteOutcome_dec (writeFile_outcome env) WriteOk) as [Hw|Hw].
  - do 2 eexists.
    split; [now apply (upload_stored_success _ _ _ _ part)|].
    now apply path_success.
  - do 2 eexists.
    split; [now apply (upload_stored_write_failure _ _ _ _ part)|].
    now apply path_write_failure.
Qed.

Lemma upload_handler_inv cfg env req w r w' :
  upload_handler cfg env req w = (r, w') ->
  exists resp, r = Ok resp /\ upload_path cfg env req w resp w'.
Proof.
  intros H. destruct (upload_handler_path cfg env req w) as (r0 & w0 & E & P).
  rewrite E in H. injection H as <- <-. eauto.
Qed.

(** ** Upload: failures after the file was stored *)

(** C4: when the metadata write fails after the file was stored, the
    handler unlinks the file it just stored, answers 500 'Error saving
    software metadata.' whether or not the unlink works (a failed unlink
    only adds a console line), and the store holds no new record: it is
    unchanged, or torn by the failed write. *)
Theorem upload_cleans_up_after_write_failure cfg env req w part :
  token_accepted cfg req ->
  softwareFile req = Some part ->
  valid_exe part ->
  Js.truthy (softwareName (fields req)) = true ->
  ~ read_failure env w ->
  writeFile_outcome env <> WriteOk ->
  exists w',
    upload_handler cfg env req w =
    (Ok (json 500 "Error saving software metadata."), w') /\
    emitted w w' =
    ([MulterParse; FsWriteUpload (filename env part)]
     ++ read_events w
     ++ [FsWriteFile; ConsoleError "Error writing metadata:";
         ConsoleError "Error saving metadata:";
         FsUnlink (filename env part)]
     ++ (if unlink_fails env
         then [ConsoleError "Error deleting file after metadata failure:"]
         else []))%list /\
    (unlink_fails env = false -> uploads w' !! filename env part = None) /\
    (unlink_fails env = false -> uploads w' = delete (filename env part) (uploads w)) /\
    (metadata w' = metadata w \/ metadata w' = Some Malformed) /\
    (stored_records w' = stored_records w \/ stored_records w' = []).
Proof.
  intros Hacc Hfile Hvalid Hname Hread Hwrite. eexists. split.
  { now apply (upload_stored_write_failure _ _ _ _ part). }
  split.
  { apply emitted_app. unfold cleanup_events. reflexivity. }
  simpl. split; [|split; [|split]].
  - intros ->. apply lookup_delete_eq.
  - now intros ->.
  - destruct (writeFile_outcome env); [contradiction|now left|now right].
  - unfold stored_records. simpl.
    destruct (writeFile_outcome env); [contradiction|now left|now right].
Qed.

Lemma upload_cleans_up_after_write_failure_witness :
  exists w',
    upload_handler Sample.cfg Sample.env_write_refused
      (Sample.request (Some "s3cret") (Some Sample.exe) (Some "App"))
      Sample.empty_store
    = (Ok (json 500 "Error saving software metadata."), w') /\
    uploads w' !! Sample.stored_name = None /\
    stored_records w' = [].
Proof.
  assert (Hread : ~ read_failure Sample.env_write_refused Sample.empty_store)
    by (intros [H|H]; discriminate).
  destruct (upload_cleans_up_after_write_failure Sample.cfg
              Sample.env_write_refused
              (Sample.request (Some "s3cret") (Some Sample.exe) (Some "App"))
              Sample.empty_store Sample.exe)
    as (w' & Hrun & _ & Hgone & _ & _ & Hrec).
  - split; reflexivity.
  - reflexivity.
  - split; [reflexivity | vm_compute; discriminate].
  - reflexivity.
  - exact Hread.
  - discriminate.
  - exists w'. repeat split; try assumption.
    + apply Hgone. reflexivity.
    + destruct Hrec as [H|H]; exact H.
Defined.


Ltac emitted_goal :=
  erewrite emitted_app
    by (unfold emit, cleanup_events; simpl; rewrite <- ?app_assoc; reflexivity).








(** ** Upload: the extension filter *)

(** C6: an upload whose file extension, compared without regard to
    case, is not [.exe] stores no file and appends no record, whatever
    else the request holds; once past the token gate it is answered 400
    'Only .exe files are allowed!', the error multer raises while parsing
    the body. *)
Theorem upload_rejects_non_exe cfg env req w part :
  softwareFile req = Some part ->
  Js.toLowerCase (Path.extname (originalname part)) <> ".exe" ->
  exists r w',
    upload_handler cfg env req w = (Ok r, w') /\
    uploads w' = uploads w /\
    metadata w' = metadata w /\
    existsb is_fs_event (emitted w w') = false /\
    status r <> 201 /\
    (token_accepted cfg req ->
     r = json 400 "Only .exe files are allowed!" /\
     emitted w w' = [MulterParse; ConsoleError "Unknown upload error:"]).
Proof.
  intros Hfile Hext.
  destruct (upload_handler_path cfg env req w) as (r & w' & Hrun & P).
  exists r, w'. split; [exact Hrun|].
  inversion P; subst; clear P;
    try (match goal with
         | H : softwareFile req = _ |- _ =>
           rewrite Hfile in H; first [discriminate | injection H as <-]
         end);
    try (match goal with
         | H : valid_exe _ |- _ => destruct H; contradiction
         end);
    try contradiction;
    emitted_goal; simpl;
    (split; [reflexivity|]); (split; [reflexivity|]); (split; [reflexivity|]);
    (split; [discriminate|]).
  - intros [H' _]. congruence.
  - intros [_ H']. contradiction.
  - intros _. split; reflexivity.
Qed.

Lemma upload_rejects_non_exe_witness :
  exists r w',
    upload_handler Sample.cfg Sample.env
      (Sample.request (Some "s3cret") (Some Sample.zip) (Some "App"))
      Sample.empty_store = (Ok r, w') /\
    uploads w' = uploads Sample.empty_store /\
    metadata w' = metadata Sample.empty_store /\
    r = json 400 "Only .exe files are allowed!".
Proof.
  destruct (upload_rejects_non_exe Sample.cfg Sample.env
              (Sample.request (Some "s3cret") (Some Sample.zip) (Some "App"))
              Sample.empty_store Sample.zip)
    as (r & w' & Hrun & Hup & Hmeta & _ & _ & Hacc).
  - reflexivity.
  - vm_compute. discriminate.
  - exists r, w'. split; [exact Hrun|]. split; [exact Hup|].
    split; [exact Hmeta|]. apply Hacc. split; reflexivity.
Defined.

(** ** Storage failures and the status they are reported with *)

(** Whenever the file is there but [readMetadata] throws, the download
    handler's catch answers 404. *)
Lemma download_store_failure env f w c :
  Js.includes f ".." = false ->
  Js.includes f "/" = false ->
  access_fails env = false ->
  uploads w !! f = Some c ->
  read_failure env w ->
  fst (download_handler env f w) = Ok (send 404 "File not found.").
Proof.
  intros H1 H2 Ha Hc Hr. unfold download_handler, try_catch. rewrite H1, H2.
  simpl. unfold bind, fs_access. rewrite Ha. simpl. rewrite Hc.
  assert (Hr' : read_failure env (emit (FsAccess f) w)) by exact Hr.
  destruct (readMetadata_fails _ _ Hr') as [e ->]. reflexivity.
Qed.

(** C3 (the code departs from it): with a metadata file that does not
    parse, the listing handler and the upload handler answer 500, but the
    download handler, asked for a file that is present in the upload
    directory, answers 404 'File not found.'. *)
Theorem download_reports_store_failure_as_not_found :
  fst (download_handler Sample.env Sample.stored_name
         Sample.broken_store_with_file)
  = Ok (send 404 "File not found.") /\
  uploads Sample.broken_store_with_file !! Sample.stored_name
  = Some (content Sample.exe) /\
  fst (list_handler Sample.env Sample.broken_store_with_file)
  = Ok (json 500 "Error fetching software list.") /\
  fst (upload_handler Sample.cfg Sample.env
         (Sample.request (Some "s3cret") (Some Sample.exe) (Some "App"))
         Sample.broken_store_with_file)
  = Ok (json 500 "Error saving software metadata.").
Proof.
  split; [reflexivity|]. split; [reflexivity|]. split; [reflexivity|].
  rewrite (upload_stored_read_failure _ _ _ _ Sample.exe); try reflexivity.
  - split; reflexivity.
  - split; [reflexivity | vm_compute; discriminate].
  - right. reflexivity.
Qed.

(** ** Listing *)

Section Sorting.

Context {A : Type} (cmp : A -> A -> Z).

Lemma sort_insert_perm x l : Permutation (x :: l) (sort_insert cmp x l).
Proof.
  induction l as [|y l IH]; simpl; [reflexivity|].
  destruct (0 <? cmp x y)%Z; [|reflexivity].
  rewrite perm_swap. now apply perm_skip.
Qed.

Lemma Array_sort_perm l : Permutation l (Array_sort cmp l).
Proof.
  induction l as [|x l IH]; simpl; [reflexivity|].
  rewrite <- sort_insert_perm. now apply perm_skip.
Qed.

Lemma Array_sort_length l : length (Array_sort cmp l) = length l.
Proof. symmetry. apply Permutation_length, Array_sort_perm. Qed.

End Sorting.

Lemma sort_insert_newest_first x l :
  newest_first l -> newest_first (sort_insert by_uploadedAt_desc x l).
Proof.
  unfold newest_first. induction 1 as [|y l Hl IH Hy]; simpl.
  - repeat constructor.
  - unfold by_uploadedAt_desc at 1.
    destruct (0 <? uploadedAt y - uploadedAt x)%Z eqn:E.
    + apply Z.ltb_lt in E. constructor; [exact IH|].
      rewrite <- (sort_insert_perm by_uploadedAt_desc x l).
      constructor; [lia | exact Hy].
    + apply Z.ltb_ge in E. constructor; [now constructor|].
      constructor; [lia|].
      eapply Forall_impl; [exact Hy|]. simpl. intros z Hz. lia.
Qed.

Lemma Array_sort_newest_first l :
  newest_first (Array_sort by_uploadedAt_desc l).
Proof.
  induction l as [|x l IH]; simpl; [constructor|].
  now apply sort_insert_newest_first.
Qed.

(** A list that is already newest-first comes back as it is. *)
Lemma Array_sort_sorted l :
  newest_first l -> Array_sort by_uploadedAt_desc l = l.
Proof.
  unfold newest_first. induction 1 as [|x l Hl IH Hx]; [reflexivity|].
  simpl. fold (Array_sort by_uploadedAt_desc l). rewrite IH.
  destruct l as [|y l]; [reflexivity|]. simpl.
  inversion Hx; subst. unfold by_uploadedAt_desc.
  destruct (0 <? uploadedAt y - uploadedAt x)%Z eqn:E; [|reflexivity].
  apply Z.ltb_lt in E. lia.
Qed.

Lemma list_handler_ok env w :
  ~ read_failure env w ->
  list_handler env w =
  (Ok {| status := 200;
         payload := Listing (Array_sort by_uploadedAt_desc (stored_records w)) |},
   {| uploads := uploads w; metadata := metadata w;
      events := (events w ++ read_events w)%list |}).
Proof.
  intros H. unfold list_handler, try_catch, bind.
  now rewrite (readMetadata_returns _ _ H).
Qed.

Lemma list_handler_fails env w :
  read_failure env w ->
  list_handler env w =
  (Ok (json 500 "Error fetching software list."),
   emit (ConsoleError "Error reading metadata:") (emit FsReadFile w)).
Proof.
  intros H. unfold list_handler, try_catch, bind.
  destruct (readMetadata_fails _ _ H) as [e ->]. reflexivity.
Qed.

(** What one upload does to the metadata file. *)
Lemma upload_path_store cfg env req w r w' :
  upload_path cfg env req w r w' ->
  (status r = 201 /\ metadata w <> Some Malformed /\
   exists rec, metadata w' = Some (JsonArray (stored_records w ++ [rec]))) \/
  (status r <> 201 /\
   (metadata w' = metadata w \/ metadata w' = Some Malformed)).
Proof.
  intros P. inversion P; subst; clear P; simpl;
    try (right; split; [discriminate | now left]).
  - right. split; [discriminate|].
    destruct (writeFile_outcome env); [contradiction | now left | now right].
  - left. split; [reflexivity|]. split; [|eauto].
    intros Hm. match goal with H : ~ read_failure _ _ |- _ => apply H end.
    now right.
Qed.

Lemma serve_uploads_cons cfg env req rest w :
  serve_uploads cfg ((env, req) :: rest) w =
  (fst (upload_handler cfg env req w)
     :: fst (serve_uploads cfg rest (snd (upload_handler cfg env req w))),
   snd (serve_uploads cfg rest (snd (upload_handler cfg env req w)))).
Proof.
  simpl. destruct (upload_handler cfg env req w) as [r w1]. simpl.
  now destruct (serve_uploads cfg rest w1).
Qed.

Lemma count_created_cons a l :
  count_created (a :: l) = (if is_created a then 1 else 0) + count_created l.
Proof. unfold count_created. simpl. now destruct (is_created a). Qed.

Lemma is_created_status resp : is_created (Ok resp) = Nat.eqb (status resp) 201.
Proof. reflexivity. Qed.

(** Once the metadata file is torn, no later upload is recorded. *)
Lemma serve_uploads_malformed cfg rs w :
  metadata w = Some Malformed ->
  metadata (snd (serve_uploads cfg rs w)) = Some Malformed /\
  count_created (fst (serve_uploads cfg rs w)) = 0.
Proof.
  revert w. induction rs as [|[env req] rs IH]; intros w Hm; [now split|].
  rewrite serve_uploads_cons. cbn [fst snd].
  destruct (upload_handler cfg env req w) as [r w1] eqn:E. cbn [fst snd].
  destruct (upload_handler_inv _ _ _ _ _ _ E) as (resp & -> & P).
  destruct (upload_path_store _ _ _ _ _ _ P) as [(_ & Hh & _) | (Hs & Hw)];
    [contradiction|].
  assert (Hm1 : metadata w1 = Some Malformed) by (destruct Hw; congruence).
  destruct (IH w1 Hm1) as [IH1 IH2]. split; [exact IH1|].
  rewrite count_created_cons, is_created_status, IH2.
  apply Nat.eqb_neq in Hs. now rewrite Hs.
Qed.

(** Served one after the other, uploads add one record per 201 answer,
    unless a failed write tore the metadata file. *)
Lemma serve_uploads_count cfg rs w :
  metadata (snd (serve_uploads cfg rs w)) = Some Malformed \/
  length (stored_records (snd (serve_uploads cfg rs w))) =
  length (stored_records w) + count_created (fst (serve_uploads cfg rs w)).
Proof.
  revert w. induction rs as [|[env req] rs IH]; intros w.
  { right. simpl. unfold count_created. simpl. lia. }
  rewrite serve_uploads_cons. cbn [fst snd].
  destruct (upload_handler cfg env req w) as [r w1] eqn:E. cbn [fst snd].
  destruct (upload_handler_inv _ _ _ _ _ _ E) as (resp & -> & P).
  rewrite count_created_cons, is_created_status.
  destruct (upload_path_store _ _ _ _ _ _ P)
    as [(Hs & Hh & rec & Hw) | (Hs & [Hw|Hw])].
  - rewrite Hs. cbn [Nat.eqb].
    assert (Hlen : length (stored_records w1) = length (stored_records w) + 1).
    { unfold stored_records at 1. rewrite Hw, length_app. simpl. lia. }
    destruct (IH w1) as [IH1|IH1]; [now left|right]. lia.
  - apply Nat.eqb_neq in Hs. rewrite Hs.
    assert (Hlen : stored_records w1 = stored_records w).
    { unfold stored_records. now rewrite Hw. }
    destruct (IH w1) as [IH1|IH1]; [now left|right]. rewrite IH1, Hlen. lia.
  - left. now apply serve_uploads_malformed.
Qed.

(** If every upload was answered 201 the metadata file parses. *)
Lemma serve_uploads_all_created cfg rs w :
  metadata w <> Some Malformed ->
  Forall (fun a => is_created a = true) (fst (serve_uploads cfg rs w)) ->
  metadata (snd (serve_uploads cfg rs w)) <> Some Malformed /\
  count_created (fst (serve_uploads cfg rs w)) = length rs.
Proof.
  revert w. induction rs as [|[env req] rs IH]; intros w Hm Hall; [now split|].
  rewrite serve_uploads_cons in *. cbn [fst snd] in *.
  destruct (upload_handler cfg env req w) as [r w1] eqn:E. cbn [fst snd] in *.
  destruct (upload_handler_inv _ _ _ _ _ _ E) as (resp & -> & P).
  inversion Hall as [|? ? Hr Hrest]; subst.
  rewrite count_created_cons, Hr.
  rewrite is_created_status in Hr. apply Nat.eqb_eq in Hr.
  destruct (upload_path_store _ _ _ _ _ _ P) as [(_ & _ & rec & Hw) | (Hs & _)];
    [|contradiction].
  assert (Hm1 : metadata w1 <> Some Malformed) by (rewrite Hw; discriminate).
  destruct (IH w1 Hm1 Hrest) as [IH1 IH2]. split; [exact IH1|].
  rewrite IH2. reflexivity.
Qed.

Lemma bind_assoc {A B C} (m : M A) (k : A -> M B) (h : B -> M C) w :
  bind (bind m k) h w = bind m (fun a => bind (k a) h) w.
Proof. unfold bind. now destruct (m w) as [[a|e] w1]. Qed.

Lemma bind_ext {A B} (m : M A) (k1 k2 : A -> M B) w :
  (forall a w1, k1 a w1 = k2 a w1) -> bind m k1 w = bind m k2 w.
Proof. intros H. unfold bind. destruct (m w) as [[a|e] w1]; [apply H | easy]. Qed.

Lemma resume_answered env (m : M Response) w :
  bind (bind m (fun r => ret (inl r))) (upload_resume env) w = m w.
Proof. unfold bind, ret. now destruct (m w) as [[r|e] w1]. Qed.

(** One half after the other is the handler. *)
Lemma upload_handler_split cfg env req w :
  upload_handler cfg env req w =
  bind (upload_begin cfg env req) (upload_resume env) w.
Proof.
  unfold upload_handler, upload_begin.
  destruct (negb (Js.truthy (MY_SECRET_UPLOAD_TOKEN cfg))); [reflexivity|].
  destruct (Js.strict_neq (x_upload_token req) (MY_SECRET_UPLOAD_TOKEN cfg));
    [reflexivity|].
  rewrite bind_assoc. apply bind_ext. intros out w1.
  destruct out as [err | [file|] body];
    try (symmetry; apply resume_answered).
  destruct (negb (Js.truthy (softwareName body))) eqn:Hn;
    [symmetry; apply resume_answered|].
  unfold upload_callback. rewrite Hn.
  unfold upload_resume, upload_cleanup, try_catch, bind, ret, console_error.
  destruct (readMetadata env w1) as [[l|e] w2]; cbn [pending_metadata
    pending_record pending_file].
  - destruct (writeMetadata env _ w2) as [[[]|e] w3]; [reflexivity|].
    now destruct (fs_unlink env _ _) as [[[]|e1] w4].
  - now destruct (fs_unlink env _ _) as [[[]|e1] w4].
Qed.

(** C7 (as stated): after N successful uploads the listing is said to
    hold exactly N records.  Two uploads in flight at once, each reading
    the metadata file before the other has written it, are both answered
    201, and the listing that follows holds one record. *)
Lemma racing_uploads_lose_a_record :
  exists r1 r2 w' w'',
    uploads_overlapped Sample.cfg Sample.env Scenario.upload_app
      Sample.env_later Scenario.upload_tool Sample.empty_store
    = (Ok (r1, r2), w') /\
    status r1 = 201 /\
    status r2 = 201 /\
    list_handler Sample.env w'
    = (Ok {| status := 200; payload := Listing [Scenario.tool_record] |}, w'') /\
    length [Scenario.tool_record] <> 2.
Proof.
  do 4 eexists. split; [vm_compute; reflexivity|].
  split; [reflexivity|]. split; [reflexivity|].
  split; [vm_compute; reflexivity | discriminate].
Qed.

(** C7 (amended): the listing handler returns every stored record,
    newest first (time stamps never increase along the list), without
    changing the upload directory or the metadata file; when the
    metadata file cannot be read or parsed it answers 500.  After
    uploads served one after the other, none starting before the
    previous one has answered, a listing holds one record more per
    upload answered 201: starting from an empty store, N such
    successful uploads give exactly N records. *)
Theorem list_returns_all_newest_first :
  (forall env w,
      exists r w',
        list_handler env w = (Ok r, w') /\
        uploads w' = uploads w /\
        metadata w' = metadata w /\
        (~ read_failure env w ->
         exists l,
           r = {| status := 200; payload := Listing l |} /\
           Permutation (stored_records w) l /\
           length l = length (stored_records w) /\
           newest_first l) /\
        (read_failure env w -> r = json 500 "Error fetching software list.")) /\
  (forall cfg rs w env r w'',
      list_handler env (snd (serve_uploads cfg rs w)) = (Ok r, w'') ->
      status r = 200 ->
      exists l,
        payload r = Listing l /\
        length l =
        length (stored_records w) + count_created (fst (serve_uploads cfg rs w)) /\
        newest_first l) /\
  (forall cfg rs w env,
      metadata w <> Some Malformed ->
      Forall (fun a => is_created a = true) (fst (serve_uploads cfg rs w)) ->
      readFile_fails env = false ->
      exists l w'',
        list_handler env (snd (serve_uploads cfg rs w))
        = (Ok {| status := 200; payload := Listing l |}, w'') /\
        length l = length (stored_records w) + length rs /\
        newest_first l).
Proof.
  split; [|split].
  - intros env w. destruct (read_failure_dec env w) as [Hf|Hok].
    + do 2 eexists. split; [now apply list_handler_fails|].
      split; [reflexivity|]. split; [reflexivity|].
      split; [intros H; contradiction | reflexivity].
    + do 2 eexists. split; [now apply list_handler_ok|].
      split; [reflexivity|]. split; [reflexivity|].
      split; [|intros H; contradiction].
      intros _. eexists. split; [reflexivity|].
      split; [apply Array_sort_perm|].
      split; [apply Array_sort_length | apply Array_sort_newest_first].
  - intros cfg rs w env r w'' Hrun Hst.
    destruct (read_failure_dec env (snd (serve_uploads cfg rs w))) as [Hf|Hok].
    { rewrite (list_handler_fails _ _ Hf) in Hrun. injection Hrun as <- _.
      discriminate. }
    rewrite (list_handler_ok _ _ Hok) in Hrun. injection Hrun as <- _.
    eexists. split; [reflexivity|].
    split; [|apply Array_sort_newest_first].
    rewrite Array_sort_length.
    destruct (serve_uploads_count cfg rs w) as [Hm|Hc]; [|exact Hc].
    exfalso. apply Hok. now right.
  - intros cfg rs w env Hm Hall Hr.
    destruct (serve_uploads_all_created cfg rs w Hm Hall) as [Hm' Hn].
    assert (Hok : ~ read_failure env (snd (serve_uploads cfg rs w))).
    { intros [H|H]; congruence. }
    do 2 eexists. split; [now apply list_handler_ok|].
    split; [|apply Array_sort_newest_first].
    rewrite Array_sort_length.
    destruct (serve_uploads_count cfg rs w) as [Hm2|Hc]; [contradiction|].
    now rewrite Hc, Hn.
Qed.

Lemma list_returns_all_newest_first_witness :
  exists l w'',
    list_handler Sample.env
      (snd (serve_uploads Sample.cfg
              [(Sample.env,
                Sample.request (Some "s3cret") (Some Sample.exe) (Some "App"));
               (Sample.env_later,
                Sample.request (Some "s3cret") (Some Sample.exe) (Some "Tool"))]
              Sample.empty_store))
    = (Ok {| status := 200; payload := Listing l |}, w'') /\
    length l = 2 /\
    newest_first l.
Proof.
  apply (proj2 (proj2 list_returns_all_newest_first) Sample.cfg
           [(Sample.env,
             Sample.request (Some "s3cret") (Some Sample.exe) (Some "App"));
            (Sample.env_later,
             Sample.request (Some "s3cret") (Some Sample.exe) (Some "Tool"))]
           Sample.empty_store Sample.env).
  - discriminate.
  - vm_compute. repeat constructor.
  - reflexivity.
Defined.

Example listing_after_two_uploads :
  List.map name
    (match fst (list_handler Sample.env
             (snd (serve_uploads Sample.cfg
                [(Sample.env,
                  Sample.request (Some "s3cret") (Some Sample.exe) (Some "App"));
                 (Sample.env_later,
                  Sample.request (Some "s3cret") (Some Sample.exe) (Some "Tool"))]
                Sample.empty_store))) with
     | Ok {| payload := Listing l |} => l
     | _ => []
     end) = ["Tool"; "App"].
Proof. vm_compute. reflexivity. Qed.

(** ** Generated file names *)

Lemma is_hex_plain c : is_hex c = true -> plain_char c = true.
Proof.
  destruct c as [[] [] [] [] [] [] [] []]; vm_compute; intros H;
    first [reflexivity | discriminate].
Qed.

Lemma hex_run_plain n s rest :
  hex_run n s = Some rest ->
  all_chars plain_char rest = true -> all_chars plain_char s = true.
Proof.
  revert s. induction n as [|n IH]; intros s H Hrest; simpl in H.
  - now injection H as ->.
  - destruct s as [|c s]; [discriminate|].
    destruct (is_hex c) eqn:Hc; [|discriminate].
    simpl. rewrite (is_hex_plain _ Hc). simpl. now apply IH.
Qed.

Lemma hex_group_plain n s rest :
  hex_group n s = Some rest ->
  all_chars plain_char rest = true -> all_chars plain_char s = true.
Proof.
  unfold hex_group. intros H Hrest.
  destruct (hex_run n s) as [[|c t]|] eqn:E; try discriminate.
  destruct (Ascii.eqb_spec c "-") as [->|]; [|discriminate].
  injection H as ->. apply (hex_run_plain _ _ _ E). simpl. exact Hrest.
Qed.

(** A UUID holds neither a dot nor a slash. *)
Lemma is_uuid_plain u : is_uuid u = true -> all_chars plain_char u = true.
Proof.
  unfold is_uuid. intros H.
  destruct (hex_group 8 u) as [s1|] eqn:E1; [|discriminate].
  destruct (hex_group 4 s1) as [s2|] eqn:E2; [|discriminate].
  destruct (hex_group 4 s2) as [s3|] eqn:E3; [|discriminate].
  destruct (hex_group 4 s3) as [s4|] eqn:E4; [|discriminate].
  destruct (hex_run 12 s4) as [[|c t]|] eqn:E5; try discriminate.
  apply (hex_group_plain _ _ _ E1), (hex_group_plain _ _ _ E2),
    (hex_group_plain _ _ _ E3), (hex_group_plain _ _ _ E4),
    (hex_run_plain _ _ _ E5).
  reflexivity.
Qed.

Lemma plain_char_neq c : plain_char c = true -> c <> "."%char /\ c <> "/"%char.
Proof.
  unfold plain_char. intros H. apply andb_true_iff in H as [H1 H2].
  apply negb_true_iff in H1, H2.
  split; intros ->; discriminate.
Qed.

Lemma prefix_head_ne c s a t :
  c <> a -> String.prefix (String c s) (String a t) = false.
Proof.
  intros H. cbn [String.prefix].
  destruct (ascii_dec c a); [contradiction | reflexivity].
Qed.

(** In front of any string, plain characters add no slash and no [..]. *)
Lemma includes_after_plain u e :
  all_chars plain_char u = true ->
  Js.includes (u ++ e) "/" = Js.includes e "/" /\
  Js.includes (u ++ e) ".." = Js.includes e "..".
Proof.
  induction u as [|a u IH]; intros H; [now split|].
  simpl in H. apply andb_true_iff in H as [Ha Hu].
  destruct (IH Hu) as [IH1 IH2]. destruct (plain_char_neq _ Ha) as [Hdot Hsl].
  change (String a u ++ e) with (String a (u ++ e)).
  cbn [Js.includes]. rewrite IH1, IH2.
  rewrite !prefix_head_ne by congruence. now split.
Qed.

Lemma lower_char_dot c : Js.lower_char c = "."%char -> c = "."%char.
Proof.
  destruct c as [[] [] [] [] [] [] [] []]; vm_compute; intros H;
    first [reflexivity | discriminate].
Qed.

Lemma lower_char_e c :
  Js.lower_char c = "e"%char -> c = "e"%char \/ c = "E"%char.
Proof.
  destruct c as [[] [] [] [] [] [] [] []]; vm_compute; intros H;
    first [now left | now right | discriminate].
Qed.

Lemma lower_char_x c :
  Js.lower_char c = "x"%char -> c = "x"%char \/ c = "X"%char.
Proof.
  destruct c as [[] [] [] [] [] [] [] []]; vm_compute; intros H;
    first [now left | now right | discriminate].
Qed.

(** An extension the filter lets through is [.exe] in some casing. *)
Lemma exe_extension_safe e :
  Js.toLowerCase e = ".exe" ->
  Js.includes e "/" = false /\ Js.includes e ".." = false.
Proof.
  intros H.
  destruct e as [|c1 [|c2 [|c3 [|c4 [|c5 e]]]]]; try discriminate.
  simpl in H. injection H as H1 H2 H3 H4.
  apply lower_char_dot in H1. apply lower_char_e in H2, H4.
  apply lower_char_x in H3. subst c1.
  destruct H2 as [-> | ->], H3 as [-> | ->], H4 as [-> | ->]; now split.
Qed.

Lemma valid_exe_filename_safe env part :
  is_uuid (uuid_for_file env) = true ->
  valid_exe part ->
  Js.includes (filename env part) "/" = false /\
  Js.includes (filename env part) ".." = false.
Proof.
  intros Hu [Hext _]. unfold filename.
  destruct (includes_after_plain (uuid_for_file env)
              (Path.extname (originalname part)) (is_uuid_plain _ Hu))
    as [-> ->].
  now apply exe_extension_safe.
Qed.

(** A name that passes the check is never answered 400. *)
Lemma download_checked_name env f w :
  Js.includes f ".." = false ->
  Js.includes f "/" = false ->
  exists r w',
    download_handler env f w = (Ok r, w') /\ (status r = 200 \/ status r = 404).
Proof.
  intros H1 H2. unfold download_handler, try_catch. rewrite H1, H2. simpl.
  unfold bind.
  destruct (fs_access env f w) as [[[]|e] w1]; simpl; [|eauto].
  destruct (readMetadata env w1) as [[l|e] w2]; simpl; eauto.
Qed.

Lemma download_present env f w c :
  Js.includes f ".." = false ->
  Js.includes f "/" = false ->
  access_fails env = false ->
  uploads w !! f = Some c ->
  ~ read_failure env w ->
  exists sentAs w',
    download_handler env f w =
    (Ok {| status := 200; payload := Download f sentAs |}, w').
Proof.
  intros H1 H2 Ha Hc Hr. unfold download_handler, try_catch. rewrite H1, H2.
  simpl. unfold bind, fs_access. rewrite Ha. simpl. rewrite Hc.
  assert (Hr' : ~ read_failure env (emit (FsAccess f) w)) by exact Hr.
  rewrite (readMetadata_returns _ _ Hr'). simpl. eauto.
Qed.

(** C10: the record a successful upload creates names the file
    [uuidv4() + path.extname(originalname)]; such a name holds no path
    separator and no [..], so no download of it is ever refused by the
    file-name check, and a download right after the upload finds the
    file. *)
Theorem uploaded_name_passes_download_check cfg env req w r w' msg rec :
  is_uuid (uuid_for_file env) = true ->
  upload_handler cfg env req w = (Ok r, w') ->
  payload r = Created msg rec ->
  (exists part,
      softwareFile req = Some part /\
      serverFilename rec = uuid_for_file env ++ Path.extname (originalname part) /\
      uploads w' !! serverFilename rec = Some (content part)) /\
  Js.includes (serverFilename rec) "/" = false /\
  Js.includes (serverFilename rec) ".." = false /\
  (forall env' w0,
      exists r' w1,
        download_handler env' (serverFilename rec) w0 = (Ok r', w1) /\
        status r' <> 400) /\
  (forall env',
      access_fails env' = false ->
      readFile_fails env' = false ->
      exists sentAs w1,
        download_handler env' (serverFilename rec) w' =
        (Ok {| status := 200; payload := Download (serverFilename rec) sentAs |},
         w1)).
Proof.
  intros Hu Hrun Hpay.
  destruct (upload_handler_inv _ _ _ _ _ _ Hrun) as (resp & [= <-] & P).
  inversion P; subst; clear P; try discriminate.
  simpl in Hpay. injection Hpay as _ <-. simpl.
  match goal with Hv : valid_exe _ |- _ =>
    destruct (valid_exe_filename_safe env _ Hu Hv) as [Hsl Hdd] end.
  split; [|split; [exact Hsl | split; [exact Hdd | split]]].
  - eexists. split; [eassumption|]. split; [reflexivity|].
    apply lookup_insert_eq.
  - intros env' w0.
    destruct (download_checked_name env' _ w0 Hdd Hsl) as (r' & w1 & E & Hs).
    exists r', w1. split; [exact E|]. destruct Hs as [-> | ->]; discriminate.
  - intros env' Ha Hr.
    eapply download_present; try eassumption.
    + simpl. apply lookup_insert_eq.
    + intros [Hf|Hf]; [congruence | discriminate].
Qed.

Lemma uploaded_name_passes_download_check_witness :
  Js.includes Sample.stored_name "/" = false /\
  Js.includes Sample.stored_name ".." = false /\
  exists sentAs w1,
    download_handler Sample.env Sample.stored_name
      (snd (upload_handler Sample.cfg Sample.env
              (Sample.request (Some "s3cret") (Some Sample.exe) (Some "App"))
              Sample.empty_store))
    = (Ok {| status := 200; payload := Download Sample.stored_name sentAs |}, w1).
Proof.
  destruct (uploaded_name_passes_download_check Sample.cfg Sample.env
              (Sample.request (Some "s3cret") (Some Sample.exe) (Some "App"))
              Sample.empty_store
              {| status := 201;
                 payload :=
                   Created "Software uploaded successfully!"
                     (newSoftware Sample.env
                        (stored_file Sample.env Sample.exe)
                        (Sample.form (Some "App"))) |}
              (snd (upload_handler Sample.cfg Sample.env
                      (Sample.request (Some "s3cret") (Some Sample.exe)
                         (Some "App"))
                      Sample.empty_store))
              "Software uploaded successfully!"
              (newSoftware Sample.env (stored_file Sample.env Sample.exe)
                 (Sample.form (Some "App"))))
    as (_ & Hsl & Hdd & _ & Hdown).
  - reflexivity.
  - vm_compute. reflexivity.
  - reflexivity.
  - split; [exact Hsl|]. split; [exact Hdd|].
    apply (Hdown Sample.env); reflexivity.
Defined.


(** * Further properties of the handlers *)

(** ** The metadata store *)

(** X1: [readMetadata] never fails because the file is missing: it then
    returns the empty list; whatever it does, it leaves the upload
    directory and the metadata file as they were, and an error it
    throws is never ENOENT. *)
Theorem readMetadata_missing_file_is_empty env w r w' :
  readMetadata env w = (r, w') ->
  r <> Throw ENOENT /\
  uploads w' = uploads w /\
  metadata w' = metadata w /\
  (readFile_fails env = false -> metadata w = None -> r = Ok []) /\
  (forall l, r = Ok l -> l = stored_records w).
Proof.
  intros H. destruct (read_failure_dec env w) as [Hf|Hok].
  - destruct (readMetadata_fails _ _ Hf) as [e He].
    rewrite He in H. injection H as <- <-.
    assert (He' := He). unfold readMetadata, try_catch, bind, fs_readFile in He'.
    repeat split; try discriminate.
    + intros [= ->]. destruct (readFile_fails env) eqn:E; [discriminate|].
      simpl in He'. destruct Hf as [Hf|Hf]; [congruence|].
      rewrite Hf in He'. discriminate.
    + intros Hr Hm. destruct Hf as [Hf|Hf]; congruence.
  - rewrite (readMetadata_returns _ _ Hok) in H. injection H as <- <-.
    repeat split; try discriminate.
    + intros _ Hm. unfold stored_records. now rewrite Hm.
    + intros l [= <-]. reflexivity.
Qed.

Lemma readMetadata_missing_file_is_empty_witness :
  fst (readMetadata Sample.env Scenario.no_store) = Ok [] /\
  metadata (snd (readMetadata Sample.env Scenario.no_store)) = None.
Proof.
  destruct (readMetadata_missing_file_is_empty Sample.env Scenario.no_store
              (fst (readMetadata Sample.env Scenario.no_store))
              (snd (readMetadata Sample.env Scenario.no_store)) eq_refl)
    as (_ & _ & Hm & Hempty & _).
  split; [apply Hempty; reflexivity | exact Hm].
Defined.

(** X2: what [writeMetadata] stored is what [readMetadata] returns next,
    whatever the file held before; a write that fails is re-thrown to
    the caller after one console line. *)
Theorem write_then_read_metadata env env' data w :
  readFile_fails env' = false ->
  (writeFile_outcome env = WriteOk ->
   exists w1 w2,
     writeMetadata env data w = (Ok tt, w1) /\
     uploads w1 = uploads w /\
     readMetadata env' w1 = (Ok data, w2)) /\
  (writeFile_outcome env <> WriteOk ->
   exists w1,
     writeMetadata env data w = (Throw EIO, w1) /\
     emitted w w1 = [FsWriteFile; ConsoleError "Error writing metadata:"]).
Proof.
  intros Hr. split.
  - intros Hw. rewrite (writeMetadata_ok _ _ _ Hw). do 2 eexists.
    split; [reflexivity|]. split; [reflexivity|].
    now apply readMetadata_ok.
  - intros Hw. rewrite (writeMetadata_fails _ _ _ Hw). eexists.
    split; [reflexivity|]. now apply emitted_app.
Qed.

Lemma write_then_read_metadata_witness :
  exists w1 w2,
    writeMetadata Sample.env [Scenario.app_record] Sample.broken_store
    = (Ok tt, w1) /\
    readMetadata Sample.env w1 = (Ok [Scenario.app_record], w2).
Proof.
  destruct (proj1 (write_then_read_metadata Sample.env Sample.env
                     [Scenario.app_record] Sample.broken_store eq_refl)
                  eq_refl)
    as (w1 & w2 & Hw & _ & Hr).
  exists w1, w2. split; assumption.
Defined.

(** ** Uploads that go through *)





(** ** What the handlers never do *)

Lemma download_answers env f w :
  exists r w',
    download_handler env f w = (Ok r, w') /\
    (status r = 200 \/ status r = 400 \/ status r = 404).
Proof.
  destruct (Js.includes f ".." || Js.includes f "/") eqn:E.
  - unfold download_handler, try_catch. rewrite E. simpl. eauto 6.
  - apply orb_false_iff in E as [E1 E2].
    destruct (download_checked_name env f w E1 E2) as (r & w' & H & Hs).
    exists r, w'. split; [exact H|]. tauto.
Qed.

(** X5: no handler lets an exception escape, and each answers only
    with its own statuses: upload 201, 400, 401 or 500; listing 200 or
    500; download 200, 400 or 404 (never 500). *)
Theorem handlers_always_answer :
  (forall cfg env req w,
      exists r w',
        upload_handler cfg env req w = (Ok r, w') /\
        In (status r) [201; 400; 401; 500]) /\
  (forall env w,
      exists r w',
        list_handler env w = (Ok r, w') /\ In (status r) [200; 500]) /\
  (forall env f w,
      exists r w',
        download_handler env f w = (Ok r, w') /\ In (status r) [200; 400; 404]).
Proof.
  split; [|split].
  - intros cfg env req w.
    destruct (upload_handler_path cfg env req w) as (r & w' & H & P).
    exists r, w'. split; [exact H|].
    inversion P; subst; simpl; auto 10.
  - intros env w. destruct (read_failure_dec env w) as [Hf|Hok].
    + rewrite (list_handler_fails _ _ Hf). do 2 eexists.
      split; [reflexivity|]. simpl. auto.
    + rewrite (list_handler_ok _ _ Hok). do 2 eexists.
      split; [reflexivity|]. simpl. auto.
  - intros env f w. destruct (download_answers env f w) as (r & w' & H & Hs).
    exists r, w'. split; [exact H|]. simpl.
    destruct Hs as [-> | [-> | ->]]; auto.
Qed.

(** X6: an upload changes no file of the upload directory other than
    the one it stores under its generated name. *)
Theorem upload_touches_only_its_file cfg env req w r w' g :
  upload_handler cfg env req w = (r, w') ->
  (forall part, softwareFile req = Some part -> g <> filename env part) ->
  uploads w' !! g = uploads w !! g.
Proof.
  intros Hrun Hg.
  destruct (upload_handler_inv _ _ _ _ _ _ Hrun) as (resp & -> & P).
  inversion P; subst; clear P; simpl; try reflexivity;
    match goal with
    | H : softwareFile req = Some ?p |- _ => specialize (Hg p H)
    end;
    try (destruct (unlink_fails env));
    first [ rewrite lookup_insert_ne by congruence; reflexivity
          | rewrite lookup_delete_ne by congruence; reflexivity ].
Qed.

Lemma upload_touches_only_its_file_witness :
  uploads (snd (upload_handler Sample.cfg Sample.env_later Scenario.upload_tool
                  Scenario.one_app)) !! Sample.stored_name
  = Some (content Sample.exe).
Proof.
  rewrite (upload_touches_only_its_file Sample.cfg Sample.env_later
             Scenario.upload_tool Scenario.one_app
             (fst (upload_handler Sample.cfg Sample.env_later
                     Scenario.upload_tool Scenario.one_app))
             (snd (upload_handler Sample.cfg Sample.env_later
                     Scenario.upload_tool Scenario.one_app))
             Sample.stored_name).
  - reflexivity.
  - apply surjective_pairing.
  - intros part [= <-]. vm_compute. discriminate.
Defined.

(** X7: an upload that is not answered 201 leaves the upload directory
    and the metadata file exactly as they were, provided the clean-up
    unlink works, a failed metadata write did not tear the file, and the
    generated name was not already taken. *)
Theorem rejected_upload_leaves_storage cfg env req w resp w' :
  upload_handler cfg env req w = (Ok resp, w') ->
  status resp <> 201 ->
  unlink_fails env = false ->
  writeFile_outcome env <> WriteTorn ->
  (forall part, softwareFile req = Some part ->
                uploads w !! filename env part = None) ->
  uploads w' = uploads w /\ metadata w' = metadata w.
Proof.
  intros Hrun Hst Hu Hw Hfresh.
  destruct (upload_handler_inv _ _ _ _ _ _ Hrun) as (r & [= <-] & P).
  inversion P; subst; clear P; simpl; try (split; reflexivity);
    try (simpl in Hst; contradiction);
    rewrite Hu;
    (split; [apply delete_id; now apply Hfresh|]); try reflexivity.
  destruct (writeFile_outcome env); [reflexivity | reflexivity | contradiction].
Qed.

Lemma rejected_upload_leaves_storage_witness :
  uploads (snd (upload_handler Sample.cfg Sample.env_later
                  (Sample.request (Some "s3cret") (Some Sample.exe) None)
                  Scenario.one_app))
  = uploads Scenario.one_app /\
  metadata (snd (upload_handler Sample.cfg Sample.env_later
                   (Sample.request (Some "s3cret") (Some Sample.exe) None)
                   Scenario.one_app))
  = metadata Scenario.one_app.
Proof.
  apply (rejected_upload_leaves_storage Sample.cfg Sample.env_later
           (Sample.request (Some "s3cret") (Some Sample.exe) None)
           Scenario.one_app (json 400 "Software name is required.")).
  - vm_compute. reflexivity.
  - discriminate.
  - reflexivity.
  - discriminate.
  - intros part [= <-]. reflexivity.
Defined.

(** X8: the clean-up is best effort: when the upload of a valid file is
    refused after the file was stored and the unlink fails, the answer
    is the same 400 or 500, the file stays in the upload directory, and
    no record is added for it. *)
Theorem failed_cleanup_leaves_orphan cfg env req w part :
  token_accepted cfg req ->
  softwareFile req = Some part ->
  valid_exe part ->
  unlink_fails env = true ->
  Js.truthy (softwareName (fields req)) = false \/
  read_failure env w \/
  writeFile_outcome env <> WriteOk ->
  exists resp w',
    upload_handler cfg env req w = (Ok resp, w') /\
    (status resp = 400 \/ status resp = 500) /\
    uploads w' !! filename env part = Some (content part) /\
    (forall rec, In rec (stored_records w') -> In rec (stored_records w)) /\
    exists msg, last (emitted w w') = Some (ConsoleError msg).
Proof.
  intros Hacc Hfile Hvalid Hu Hcause.
  destruct (Js.truthy (softwareName (fields req))) eqn:Hname.
  - destruct (read_failure_dec env w) as [Hf|Hok].
    + do 2 eexists.
      split; [now apply (upload_stored_read_failure _ _ _ _ part)|].
      emitted_goal. simpl. rewrite Hu.
      split; [now right|]. split; [apply lookup_insert_eq|].
      split; [tauto | eauto].
    + destruct (WriteOutcome_dec (writeFile_outcome env) WriteOk) as [Hw|Hw].
      { exfalso. destruct Hcause as [H|[H|H]]; [discriminate | tauto | tauto]. }
      do 2 eexists.
      split; [now apply (upload_stored_write_failure _ _ _ _ part)|].
      emitted_goal. simpl. rewrite Hu.
      split; [now right|]. split; [apply lookup_insert_eq|]. split.
      * unfold stored_records. simpl.
        destruct (writeFile_outcome env); [contradiction | tauto | intros ? []].
      * rewrite !last_cons. unfold read_events.
        destruct (metadata w); simpl; eauto.
  - do 2 eexists.
    split; [now apply (upload_stored_missing_name _ _ _ _ part)|].
    emitted_goal. simpl. rewrite Hu.
    split; [now left|]. split; [apply lookup_insert_eq|].
    split; [tauto | eauto].
Qed.

Lemma failed_cleanup_leaves_orphan_witness :
  exists resp w',
    upload_handler Sample.cfg Scenario.env_unlink_fails
      (Sample.request (Some "s3cret") (Some Sample.exe) None)
      Sample.empty_store = (Ok resp, w') /\
    uploads w' !! Sample.stored_name = Some (content Sample.exe) /\
    stored_records w' = [].
Proof.
  destruct (failed_cleanup_leaves_orphan Sample.cfg Scenario.env_unlink_fails
              (Sample.request (Some "s3cret") (Some Sample.exe) None)
              Sample.empty_store Sample.exe)
    as (resp & w' & Hrun & _ & Hfile & Hrec & _).
  - split; reflexivity.
  - reflexivity.
  - split; [reflexivity | vm_compute; discriminate].
  - reflexivity.
  - left. reflexivity.
  - exists resp, w'. split; [exact Hrun|]. split; [exact Hfile|].
    destruct (stored_records w') as [|rec l]; [reflexivity|].
    destruct (Hrec rec (or_introl eq_refl)).
Defined.

(** ** The store over a sequence of uploads *)

Lemma upload_path_appends cfg env req w r w' :
  upload_path cfg env req w r w' ->
  metadata w' = Some Malformed \/
  (metadata w' <> Some Malformed /\
   exists l,
     stored_records w' = (stored_records w ++ l)%list /\
     length l = if Nat.eqb (status r) 201 then 1 else 0).
Proof.
  intros P. inversion P; subst; clear P; simpl;
    try (destruct (metadata w) as [[|l0]|] eqn:Hm; [now left | right | right];
         (split; [congruence|]); exists []; unfold stored_records; simpl;
         rewrite Hm, ?app_nil_r; split; reflexivity).
  - destruct (writeFile_outcome env) eqn:Ho; [contradiction | | now left].
    right. split.
    { intros Hm. match goal with H : ~ read_failure _ _ |- _ => apply H end.
      now right. }
    exists []. unfold stored_records. simpl. rewrite app_nil_r.
    split; reflexivity.
  - right. split; [discriminate|]. eexists. unfold stored_records at 1. simpl.
    split; reflexivity.
Qed.

(** X9: the metadata store is append-only: over any sequence of uploads
    served one after the other, the records already stored stay as they
    are and in place, and exactly one record is appended per upload
    answered 201, unless a failed write tore the file. *)
Theorem store_is_append_only cfg rs w :
  metadata (snd (serve_uploads cfg rs w)) = Some Malformed \/
  exists l,
    stored_records (snd (serve_uploads cfg rs w)) = (stored_records w ++ l)%list /\
    length l = count_created (fst (serve_uploads cfg rs w)).
Proof.
  revert w. induction rs as [|[env req] rs IH]; intros w.
  { right. exists []. simpl. now rewrite app_nil_r. }
  rewrite serve_uploads_cons. cbn [fst snd].
  destruct (upload_handler cfg env req w) as [r w1] eqn:E. cbn [fst snd].
  destruct (upload_handler_inv _ _ _ _ _ _ E) as (resp & -> & P).
  rewrite count_created_cons, is_created_status.
  destruct (upload_path_appends _ _ _ _ _ _ P) as [Hm | (Hm & l1 & Hl1 & Hn1)].
  { left. now apply serve_uploads_malformed. }
  destruct (IH w1) as [IH1 | (l2 & Hl2 & Hn2)]; [now left|]. right.
  exists (l1 ++ l2)%list. split.
  - now rewrite Hl2, Hl1, app_assoc.
  - rewrite length_app, Hn1, Hn2. reflexivity.
Qed.

Lemma hex_run_length n s rest :
  hex_run n s = Some rest -> String.length s = n + String.length rest.
Proof.
  revert s. induction n as [|n IH]; intros s H; simpl in H.
  - now injection H as ->.
  - destruct s as [|c s]; [discriminate|].
    destruct (is_hex c); [|discriminate]. simpl. now rewrite (IH _ H).
Qed.

Lemma hex_group_length n s rest :
  hex_group n s = Some rest -> String.length s = n + 1 + String.length rest.
Proof.
  unfold hex_group. intros H.
  destruct (hex_run n s) as [[|c t]|] eqn:E; try discriminate.
  destruct (Ascii.eqb c "-"); [|discriminate]. injection H as ->.
  rewrite (hex_run_length _ _ _ E). simpl. lia.
Qed.

Lemma is_uuid_length u : is_uuid u = true -> String.length u = 36.
Proof.
  unfold is_uuid. intros H.
  destruct (hex_group 8 u) as [s1|] eqn:E1; [|discriminate].
  destruct (hex_group 4 s1) as [s2|] eqn:E2; [|discriminate].
  destruct (hex_group 4 s2) as [s3|] eqn:E3; [|discriminate].
  destruct (hex_group 4 s3) as [s4|] eqn:E4; [|discriminate].
  destruct (hex_run 12 s4) as [[|c t]|] eqn:E5; try discriminate.
  rewrite (hex_group_length _ _ _ E1), (hex_group_length _ _ _ E2),
    (hex_group_length _ _ _ E3), (hex_group_length _ _ _ E4),
    (hex_run_length _ _ _ E5).
  reflexivity.
Qed.

Lemma append_same_length u1 u2 p1 p2 :
  u1 ++ p1 = u2 ++ p2 -> String.length u1 = String.length u2 -> u1 = u2.
Proof.
  revert u2. induction u1 as [|c u1 IH]; intros [|d u2] H Hlen;
    try discriminate; [reflexivity|].
  simpl in H, Hlen. injection H as -> H. injection Hlen as Hlen.
  now rewrite (IH _ H Hlen).
Qed.

(** Two generated names where one UUID is a prefix of the other name
    come from the same UUID. *)
Lemma uuid_prefix_of_generated u u' ext :
  is_uuid u = true -> is_uuid u' = true ->
  String.prefix u' (u ++ ext) = true -> u' = u.
Proof.
  intros Hu Hu' H. apply prefix_spec in H as [post H].
  symmetry in H. apply (append_same_length _ _ _ _ H).
  now rewrite (is_uuid_length _ Hu), (is_uuid_length _ Hu').
Qed.

Lemma upload_path_names cfg env req w r w' :
  upload_path cfg env req w r w' ->
  metadata w' = Some Malformed \/
  stored_records w' = stored_records w \/
  exists rec ext,
    stored_records w' = (stored_records w ++ [rec])%list /\
    serverFilename rec = uuid_for_file env ++ ext.
Proof.
  intros P. inversion P; subst; clear P; unfold stored_records; simpl;
    try (right; left; reflexivity).
  - destruct (writeFile_outcome env); [contradiction | | now left].
    right. left. reflexivity.
  - right. right. do 2 eexists. split; reflexivity.
Qed.

(** X10: generated file names stay unique: when the uploads of a
    sequence draw pairwise different UUIDs, none of which begins a name
    already stored, the records of the store keep pairwise different
    [serverFilename]s. *)
Theorem serverFilenames_stay_distinct cfg rs w :
  NoDup (List.map (fun er => uuid_for_file (fst er)) rs) ->
  Forall (fun er => is_uuid (uuid_for_file (fst er)) = true) rs ->
  NoDup (List.map serverFilename (stored_records w)) ->
  (forall r er, In r (stored_records w) -> In er rs ->
                String.prefix (uuid_for_file (fst er)) (serverFilename r) = false) ->
  NoDup (List.map serverFilename (stored_records (snd (serve_uploads cfg rs w)))).
Proof.
  revert w. induction rs as [|[env req] rs IH]; intros w Hnd Hall Hw Hpre;
    [exact Hw|].
  rewrite serve_uploads_cons. cbn [fst snd].
  destruct (upload_handler cfg env req w) as [r w1] eqn:E. cbn [fst snd].
  destruct (upload_handler_inv _ _ _ _ _ _ E) as (resp & -> & P).
  simpl in Hnd. apply NoDup_cons in Hnd as [Hnew Hnd].
  apply Forall_cons in Hall as [Hu Hall]. simpl in Hu.
  destruct (upload_path_names _ _ _ _ _ _ P)
    as [Hm | [Hsame | (rec & ext & Happ & Hname)]].
  - destruct (serve_uploads_malformed cfg rs w1 Hm) as [Hfin _].
    unfold stored_records. rewrite Hfin. constructor.
  - apply IH; try assumption; rewrite Hsame; [exact Hw|].
    intros r0 er Hr Her. apply Hpre; [exact Hr | now right].
  - apply IH; try assumption; rewrite Happ.
    + rewrite List.map_app. simpl. apply NoDup_app. split; [exact Hw|].
      split; [|apply NoDup_singleton].
      intros x Hx Hx'. apply list_elem_of_In in Hx.
      apply list_elem_of_singleton in Hx'. subst x.
      apply in_map_iff in Hx as (r0 & Hr0 & Hin).
      specialize (Hpre r0 (env, req) Hin (or_introl eq_refl)). simpl in Hpre.
      rewrite Hr0, Hname in Hpre.
      assert (Ht : String.prefix (uuid_for_file env) (uuid_for_file env ++ ext)
                   = true) by (apply prefix_spec; eauto).
      congruence.
    + intros r0 er Hr Her. apply in_app_or in Hr as [Hr | [<- | []]].
      * apply Hpre; [exact Hr | now right].
      * rewrite Hname.
        destruct (String.prefix (uuid_for_file (fst er))
                                (uuid_for_file env ++ ext)) eqn:Ep;
          [|reflexivity].
        exfalso. apply Hnew. apply list_elem_of_In.
        assert (Huer : is_uuid (uuid_for_file (fst er)) = true).
        { rewrite Forall_forall in Hall. apply Hall. now apply list_elem_of_In. }
        rewrite <- (uuid_prefix_of_generated _ _ _ Hu Huer Ep).
        apply in_map_iff. eauto.
Qed.

Lemma serverFilenames_stay_distinct_witness :
  NoDup (List.map serverFilename
           (stored_records
              (snd (serve_uploads Sample.cfg
                      [(Sample.env, Scenario.upload_app);
                       (Sample.env_later, Scenario.upload_tool)]
                      Sample.empty_store)))).
Proof.
  apply (serverFilenames_stay_distinct Sample.cfg
           [(Sample.env, Scenario.upload_app);
            (Sample.env_later, Scenario.upload_tool)]
           Sample.empty_store).
  - apply (bool_decide_unpack _). vm_compute. exact I.
  - repeat constructor.
  - constructor.
  - intros r er [].
Defined.

(** ** The order of a listing *)

Lemma sort_insert_oldest x l :
  Forall (fun y => (uploadedAt x < uploadedAt y)%Z) l ->
  sort_insert by_uploadedAt_desc x l = (l ++ [x])%list.
Proof.
  induction 1 as [|y l Hy Hl IH]; [reflexivity|].
  simpl. unfold by_uploadedAt_desc at 1.
  destruct (0 <? uploadedAt y - uploadedAt x)%Z eqn:E.
  - now rewrite IH.
  - apply Z.ltb_ge in E. lia.
Qed.

Lemma Array_sort_oldest_first l :
  oldest_first l -> Array_sort by_uploadedAt_desc l = rev l.
Proof.
  unfold oldest_first. induction 1 as [|x l Hl IH Hx]; [reflexivity|].
  simpl. fold (Array_sort by_uploadedAt_desc l). rewrite IH.
  apply sort_insert_oldest. rewrite Forall_forall in *.
  intros y Hy. apply Hx. apply list_elem_of_In. apply list_elem_of_In in Hy.
  now apply in_rev.
Qed.

(** X11: when the records were stored with a strictly increasing clock,
    the listing is the store in reverse order of arrival; a store that
    is already newest first (ties included) is listed as it is. *)
Theorem listing_order env w :
  ~ read_failure env w ->
  (oldest_first (stored_records w) ->
   exists w',
     list_handler env w =
     (Ok {| status := 200; payload := Listing (rev (stored_records w)) |}, w')) /\
  (newest_first (stored_records w) ->
   exists w',
     list_handler env w =
     (Ok {| status := 200; payload := Listing (stored_records w) |}, w')).
Proof.
  intros Hok. rewrite (list_handler_ok _ _ Hok). split; intros H.
  - rewrite (Array_sort_oldest_first _ H). eauto.
  - rewrite (Array_sort_sorted _ H). eauto.
Qed.

Lemma listing_order_witness :
  exists w',
    list_handler Sample.env Scenario.two_apps
    = (Ok {| status := 200;
             payload := Listing [Scenario.tool_record; Scenario.app_record] |},
       w').
Proof.
  apply (proj1 (listing_order Sample.env Scenario.two_apps
                  ltac:(intros [H|H]; discriminate))).
  repeat constructor.
Defined.

(** ** Downloads *)

Lemma download_sends env f w c :
  Js.includes f ".." = false ->
  Js.includes f "/" = false ->
  access_fails env = false ->
  uploads w !! f = Some c ->
  ~ read_failure env w ->
  download_handler env f w =
  (Ok {| status := 200; payload := Download f (sent_as f (stored_records w)) |},
   {| uploads := uploads w; metadata := metadata w;
      events := (events w ++ FsAccess f :: read_events w)%list |}).
Proof.
  intros H1 H2 Ha Hc Hr. unfold download_handler, try_catch. rewrite H1, H2.
  simpl. unfold bind, fs_access. rewrite Ha. simpl. rewrite Hc.
  assert (Hr' : ~ read_failure env (emit (FsAccess f) w)) by exact Hr.
  rewrite (readMetadata_returns _ _ Hr'). unfold ret, sent_as, emit. simpl.
  rewrite <- app_assoc. reflexivity.
Qed.

Lemma download_no_access env f w :
  Js.includes f ".." = false ->
  Js.includes f "/" = false ->
  access_fails env = true \/ uploads w !! f = None ->
  download_handler env f w =
  (Ok (send 404 "File not found."),
   emit (ConsoleError "File access error:") (emit (FsAccess f) w)).
Proof.
  intros H1 H2 Ha. unfold download_handler, try_catch. rewrite H1, H2.
  simpl. unfold bind, fs_access.
  destruct (access_fails env) eqn:E; [reflexivity|].
  destruct Ha as [Ha|Ha]; [discriminate|]. simpl. now rewrite Ha.
Qed.


Lemma sent_as_unknown f l :
  (forall r, In r l -> serverFilename r <> f) -> sent_as f l = f.
Proof.
  unfold sent_as. induction l as [|r l IH]; intros H; simpl; [reflexivity|].
  assert (Hr := H r (or_introl eq_refl)). apply String.eqb_neq in Hr.
  rewrite Hr. apply IH. intros r0 Hr0. apply H. now right.
Qed.



(** X13: a file of the upload directory that no record names is still
    served, under its stored name. *)
Theorem download_without_record env f w c :
  Js.includes f ".." = false ->
  Js.includes f "/" = false ->
  access_fails env = false ->
  uploads w !! f = Some c ->
  ~ read_failure env w ->
  (forall r, In r (stored_records w) -> serverFilename r <> f) ->
  exists w',
    download_handler env f w =
    (Ok {| status := 200; payload := Download f f |}, w').
Proof.
  intros H1 H2 Ha Hc Hr Hnone.
  rewrite (download_sends _ _ _ c) by assumption.
  rewrite (sent_as_unknown _ _ Hnone). eauto.
Qed.

Lemma download_without_record_witness :
  exists w',
    download_handler Sample.env "orphan.exe" Scenario.orphan =
    (Ok {| status := 200; payload := Download "orphan.exe" "orphan.exe" |}, w').
Proof.
  apply (download_without_record Sample.env "orphan.exe" Scenario.orphan
           (content Sample.exe)); try reflexivity.
  - intros [H|H]; discriminate.
  - intros r [<- | []]. vm_compute. discriminate.
Defined.



(** X15: a download never changes the upload directory or the metadata
    file, and performs no write, store or unlink, whatever the name and
    whatever fails. *)
Theorem download_is_read_only env f w r w' :
  download_handler env f w = (r, w') ->
  uploads w' = uploads w /\
  metadata w' = metadata w /\
  existsb is_mutation (emitted w w') = false.
Proof.
  intros H. destruct (Js.includes f ".." || Js.includes f "/") eqn:E.
  { unfold download_handler, try_catch in H. rewrite E in H.
    injection H as <- <-. now rewrite emitted_refl. }
  apply orb_false_iff in E as [E1 E2].
  destruct (access_fails env) eqn:Ha.
  { rewrite (download_no_access _ _ _ E1 E2 (or_introl Ha)) in H.
    injection H as <- <-. emitted_goal. repeat split. }
  destruct (uploads w !! f) as [c|] eqn:Hc.
  2: { rewrite (download_no_access _ _ _ E1 E2 (or_intror Hc)) in H.
       injection H as <- <-. emitted_goal. repeat split. }
  destruct (read_failure_dec env w) as [Hf|Hok].
  - unfold download_handler, try_catch in H. rewrite E1, E2 in H.
    simpl in H. unfold bind, fs_access in H. rewrite Ha in H. simpl in H.
    rewrite Hc in H.
    assert (Hf' : read_failure env (emit (FsAccess f) w)) by exact Hf.
    destruct (readMetadata_fails _ _ Hf') as [e He]. rewrite He in H.
    injection H as <- <-. emitted_goal. repeat split.
  - rewrite (download_sends _ _ _ c E1 E2 Ha Hc Hok) in H.
    injection H as <- <-. emitted_goal. split; [reflexivity|].
    split; [reflexivity|]. simpl. unfold read_events.
    now destruct (metadata w).
Qed.

Lemma download_is_read_only_witness :
  uploads (snd (download_handler Sample.env Sample.stored_name
                  Sample.broken_store_with_file))
  = uploads Sample.broken_store_with_file /\
  metadata (snd (download_handler Sample.env Sample.stored_name
                   Sample.broken_store_with_file))
  = metadata Sample.broken_store_with_file.
Proof.
  destruct (download_is_read_only Sample.env Sample.stored_name
              Sample.broken_store_with_file
              (fst (download_handler Sample.env Sample.stored_name
                      Sample.broken_store_with_file))
              (snd (download_handler Sample.env Sample.stored_name
                      Sample.broken_store_with_file)))
    as (Hu & Hm & _).
  - apply surjective_pairing.
  - split; assumption.
Defined.

(** X16: the download handler answers 400 exactly for the names that
    contain a slash or two dots in a row; so a name such as
    [a..b.exe] is refused as well, although it leaves no directory. *)
Theorem download_refused_iff env f w :
  (exists r w', download_handler env f w = (Ok r, w') /\ status r = 400)
  <->
  ((exists pre post, f = pre ++ "/" ++ post) \/
   (exists pre post, f = pre ++ ".." ++ post)).
Proof.
  rewrite <- !includes_spec. split.
  - intros (r & w' & H & Hs).
    destruct (Js.includes f "..") eqn:E1; [now right|].
    destruct (Js.includes f "/") eqn:E2; [now left|].
    destruct (download_checked_name env f w E1 E2) as (r0 & w0 & H0 & Hs0).
    rewrite H0 in H. injection H as <- <-.
    destruct Hs0 as [Hs0|Hs0]; rewrite Hs0 in Hs; discriminate.
  - intros H.
    assert (E : Js.includes f ".." || Js.includes f "/" = true).
    { apply orb_true_iff. tauto. }
    unfold download_handler, try_catch. rewrite E. simpl. eauto.
Qed.

Lemma download_refused_iff_witness :
  exists r w',
    download_handler Sample.env "a..b.exe" Scenario.one_app = (Ok r, w') /\
    status r = 400.
Proof.
  apply (proj2 (download_refused_iff Sample.env "a..b.exe" Scenario.one_app)).
  right. exists "a", "b.exe". reflexivity.
Defined.

(** ** Start-up *)

Lemma ensure_storage_run mkdir_fails env w :
  ensure_storage mkdir_fails env w =
  if mkdir_fails then
    (Ok tt,
     emit (ConsoleError
             "Error ensuring uploads directory or metadata file exists:") w)
  else if negb (access_fails env) && bool_decide (is_Some (metadata w)) then
    (Ok tt, w)
  else
    match writeFile_outcome env with
    | WriteOk =>
      (Ok tt, {| uploads := uploads w; metadata := Some (JsonArray []);
                 events := (events w ++ [FsWriteFile])%list |})
    | WriteRefused =>
      (Ok tt,
       emit (ConsoleError
               "Error ensuring uploads directory or metadata file exists:")
            (emit FsWriteFile w))
    | WriteTorn =>
      (Ok tt,
       emit (ConsoleError
               "Error ensuring uploads directory or metadata file exists:")
            {| uploads := uploads w; metadata := Some Malformed;
               events := (events w ++ [FsWriteFile])%list |})
    end.
Proof.
  unfold ensure_storage, try_catch, bind, fs_mkdir, fs_access_metadata,
    fs_writeFile, console_error.
  destruct mkdir_fails; [reflexivity|].
  destruct (access_fails env); simpl.
  - now destruct (writeFile_outcome env).
  - destruct (metadata w) as [t|]; simpl; [reflexivity|].
    now destruct (writeFile_outcome env).
Qed.

(** X17: when nothing fails, the start-up block leaves an existing
    metadata file (parsable or not) and the whole world untouched, and
    creates a missing one as the empty array; afterwards the file
    exists and holds the records it held before. *)
Theorem ensure_storage_creates_store env w :
  access_fails env = false ->
  writeFile_outcome env = WriteOk ->
  exists w',
    ensure_storage false env w = (Ok tt, w') /\
    uploads w' = uploads w /\
    (metadata w = None -> metadata w' = Some (JsonArray [])) /\
    (metadata w <> None -> w' = w) /\
    metadata w' <> None /\
    stored_records w' = stored_records w.
Proof.
  intros Ha Hw. rewrite ensure_storage_run, Ha, Hw. simpl.
  unfold stored_records.
  destruct (metadata w) as [t|] eqn:Hm; simpl; eexists;
    (split; [reflexivity|]); simpl; rewrite ?Hm;
    repeat split; try congruence.
Qed.

Lemma ensure_storage_creates_store_witness :
  exists w',
    ensure_storage false Sample.env Scenario.no_store = (Ok tt, w') /\
    metadata w' = Some (JsonArray []).
Proof.
  destruct (ensure_storage_creates_store Sample.env Scenario.no_store
              eq_refl eq_refl)
    as (w' & Hrun & _ & Hnew & _).
  exists w'. split; [exact Hrun | apply Hnew; reflexivity].
Defined.

(** X18: the start-up block never lets an exception escape.  If making
    the directory fails the metadata file is not looked at; if the
    access check fails for any reason while the write works, the file
    is rewritten as the empty array, whatever records it held. *)
Theorem ensure_storage_under_faults mkdir_fails env w :
  exists w',
    ensure_storage mkdir_fails env w = (Ok tt, w') /\
    uploads w' = uploads w /\
    (mkdir_fails = true ->
     metadata w' = metadata w /\
     emitted w w' =
     [ConsoleError "Error ensuring uploads directory or metadata file exists:"]) /\
    (mkdir_fails = false -> access_fails env = true ->
     writeFile_outcome env = WriteOk ->
     metadata w' = Some (JsonArray []) /\ stored_records w' = []).
Proof.
  rewrite ensure_storage_run. destruct mkdir_fails.
  { eexists. split; [reflexivity|]. split; [reflexivity|].
    split; [|discriminate]. intros _. split; [reflexivity|].
    apply emitted_emit. }
  destruct (access_fails env); simpl.
  - destruct (writeFile_outcome env); eexists; (split; [reflexivity|]);
      (split; [reflexivity|]); (split; [discriminate|]);
      intros _ _ H; try discriminate. now split.
  - destruct (bool_decide (is_Some (metadata w)));
      [|destruct (writeFile_outcome env)];
      eexists; (split; [reflexivity|]); (split; [reflexivity|]);
      (split; discriminate).
Qed.

Lemma ensure_storage_under_faults_witness :
  exists w',
    ensure_storage false Scenario.env_access_fails Scenario.one_app
    = (Ok tt, w') /\
    stored_records Scenario.one_app = [Scenario.app_record] /\
    stored_records w' = [].
Proof.
  destruct (ensure_storage_under_faults false Scenario.env_access_fails
              Scenario.one_app)
    as (w' & Hrun & _ & _ & Hlost).
  exists w'. split; [exact Hrun|]. split; [reflexivity|].
  apply Hlost; reflexivity.
Defined.

(** ** A missing metadata file *)

(** X19: a missing metadata file counts as an empty store: the listing
    answers 200 with no records and does not create the file, and the
    first upload that goes through creates it with exactly its own
    record. *)
Theorem missing_store_is_empty cfg env req w :
  metadata w = None ->
  readFile_fails env = false ->
  (exists w',
      list_handler env w = (Ok {| status := 200; payload := Listing [] |}, w') /\
      metadata w' = None) /\
  (upload_goes_through cfg env req w ->
   exists rec w',
     upload_handler cfg env req w =
     (Ok {| status := 201;
            payload := Created "Software uploaded successfully!" rec |}, w') /\
     metadata w' = Some (JsonArray [rec])).
Proof.
  intros Hm Hr.
  assert (Hok : ~ read_failure env w) by (intros [H|H]; congruence).
  split.
  - rewrite (list_handler_ok _ _ Hok). unfold stored_records. rewrite Hm.
    eexists. split; reflexivity || exact Hm.
  - intros (Hacc & (part & Hfile & Hvalid) & Hname & _ & Hwrite).
    rewrite (upload_stored_success _ _ _ _ part) by assumption.
    unfold stored_records. rewrite Hm. do 2 eexists. split; reflexivity.
Qed.

Lemma missing_store_is_empty_witness :
  exists w',
    list_handler Sample.env Scenario.no_store
    = (Ok {| status := 200; payload := Listing [] |}, w') /\
    metadata w' = None.
Proof.
  apply (proj1 (missing_store_is_empty Sample.cfg Sample.env
                  Scenario.upload_app Scenario.no_store eq_refl eq_refl)).
Defined.

(** ** Records and their files *)

Lemma upload_path_frame cfg env req w r w' g :
  upload_path cfg env req w r w' ->
  String.prefix (uuid_for_file env) g = false ->
  uploads w' !! g = uploads w !! g.
Proof.
  intros P Hg.
  assert (Hne : forall part, g <> filename env part).
  { intros part ->. unfold filename in Hg.
    assert (Ht : String.prefix (uuid_for_file env)
                   (uuid_for_file env ++ Path.extname (originalname part))
                 = true) by (apply prefix_spec; eauto).
    congruence. }
  inversion P; subst; clear P; simpl; try reflexivity;
    try (destruct (unlink_fails env));
    first [ rewrite lookup_insert_ne by (apply not_eq_sym, Hne); reflexivity
          | rewrite lookup_delete_ne by (apply not_eq_sym, Hne); reflexivity ].
Qed.

Lemma upload_path_new_record cfg env req w r w' :
  upload_path cfg env req w r w' ->
  metadata w' = Some Malformed \/
  stored_records w' = stored_records w \/
  exists rec ext c,
    stored_records w' = (stored_records w ++ [rec])%list /\
    serverFilename rec = uuid_for_file env ++ ext /\
    uploads w' !! serverFilename rec = Some c.
Proof.
  intros P. inversion P; subst; clear P; unfold stored_records; simpl;
    try (right; left; reflexivity).
  - destruct (writeFile_outcome env); [contradiction | | now left].
    right. left. reflexivity.
  - right. right. do 3 eexists. split; [reflexivity|].
    split; [reflexivity|]. apply lookup_insert_eq.
Qed.

(** X20: every stored record keeps naming a file of the upload
    directory: if that holds before a sequence of uploads whose UUIDs
    are pairwise different and begin no stored name, it holds after it,
    whichever uploads fail and whichever clean-ups run. *)
Theorem records_keep_their_files cfg rs w :
  NoDup (List.map (fun er => uuid_for_file (fst er)) rs) ->
  Forall (fun er => is_uuid (uuid_for_file (fst er)) = true) rs ->
  (forall r er, In r (stored_records w) -> In er rs ->
                String.prefix (uuid_for_file (fst er)) (serverFilename r) = false) ->
  (forall r, In r (stored_records w) ->
             is_Some (uploads w !! serverFilename r)) ->
  forall r, In r (stored_records (snd (serve_uploads cfg rs w))) ->
            is_Some (uploads (snd (serve_uploads cfg rs w)) !! serverFilename r).
Proof.
  revert w. induction rs as [|[env req] rs IH]; intros w Hnd Hall Hpre Hinv;
    [exact Hinv|].
  rewrite serve_uploads_cons. cbn [fst snd].
  destruct (upload_handler cfg env req w) as [a w1] eqn:E. cbn [fst snd].
  destruct (upload_handler_inv _ _ _ _ _ _ E) as (resp & -> & P).
  simpl in Hnd. apply NoDup_cons in Hnd as [Hnew Hnd].
  apply Forall_cons in Hall as [Hu Hall]. simpl in Hu.
  assert (Hold : forall r, In r (stored_records w) ->
                           is_Some (uploads w1 !! serverFilename r)).
  { intros r Hr. rewrite (upload_path_frame _ _ _ _ _ _ _ P).
    - now apply Hinv.
    - apply (Hpre r (env, req) Hr). now left. }
  destruct (upload_path_new_record _ _ _ _ _ _ P)
    as [Hm | [Hsame | (rec & ext & c & Happ & Hname & Hfile)]].
  - destruct (serve_uploads_malformed cfg rs w1 Hm) as [Hfin _].
    unfold stored_records. rewrite Hfin. intros r [].
  - apply IH; try assumption; rewrite Hsame; [|exact Hold].
    intros r0 er Hr Her. apply Hpre; [exact Hr | now right].
  - apply IH; try assumption; rewrite Happ.
    + intros r0 er Hr Her. apply in_app_or in Hr as [Hr | [<- | []]].
      * apply Hpre; [exact Hr | now right].
      * rewrite Hname.
        destruct (String.prefix (uuid_for_file (fst er))
                                (uuid_for_file env ++ ext)) eqn:Ep;
          [|reflexivity].
        exfalso. apply Hnew. apply list_elem_of_In.
        assert (Huer : is_uuid (uuid_for_file (fst er)) = true).
        { rewrite Forall_forall in Hall. apply Hall. now apply list_elem_of_In. }
        rewrite <- (uuid_prefix_of_generated _ _ _ Hu Huer Ep).
        apply in_map_iff. eauto.
    + intros r0 Hr. apply in_app_or in Hr as [Hr | [<- | []]];
        [now apply Hold | rewrite Hfile; eauto].
Qed.

Lemma records_keep_their_files_witness :
  is_Some (uploads
             (snd (serve_uploads Sample.cfg
                     [(Sample.env_later,
                       Sample.request (Some "s3cret") (Some Sample.exe) None);
                      (Sample.env, Scenario.upload_app)]
                     Sample.empty_store))
           !! serverFilename Scenario.app_record).
Proof.
  apply (records_keep_their_files Sample.cfg
           [(Sample.env_later,
             Sample.request (Some "s3cret") (Some Sample.exe) None);
            (Sample.env, Scenario.upload_app)]
           Sample.empty_store).
  - apply (bool_decide_unpack _). vm_compute. exact I.
  - repeat constructor.
  - intros r er [].
  - intros r [].
  - vm_compute. left. reflexivity.
Defined.
